(** * React18-Admin: the de-duplicating, cancellable request client

    A shallow embedding of [packages/request/src/request.ts] (class
    [AxiosRequest]) and [packages/request/src/index.ts] ([creteRequest] and
    [handleError]), and the properties of the request layer stated in the
    specification.

    - [Js]            the JavaScript values, objects and string coercions the
                      two files rely on, and a parser for a fragment of JSON;
    - [Runtime]       the mutable state the code touches (the client's
                      [abortControllerMap], the browser's storage, location,
                      timers, console, the notifier) and a state-and-exception
                      monad over it; promise settlement and [then];
    - [AxiosRequest]  the class of request.ts, with the interceptor chain
                      its constructor wires;
    - [CreateRequest] the interceptors of index.ts. *)

From Stdlib Require Import ZArith NArith String Ascii List Lia.
From stdpp Require Import base option gmap strings list pretty sorting.

Open Scope string_scope.

Set Warnings "-register-all,-clear-no-such-hyp".

(* ===================================================================== *)
(** ** JavaScript values                                                  *)
(* ===================================================================== *)

Module Js.

(** The values that reach the code: query parameters, the fields of a parsed
    JSON body, the business data of a response.  Numbers are the integers
    that print as plain decimals (|n| < 10^21, no fraction). *)
Inductive JsVal : Type :=
  | JUndefined
  | JNull
  | JBool (b : bool)
  | JNum (n : Z)
  | JStr (s : string)
  | JArr (elems : list JsVal)
  | JObj (props : list (string * JsVal)).

(** An object as its own enumerable properties, in creation order. *)
Abbreviation JsObject := (list (string * JsVal)).

(** [`${v}`]: the string coercion a template literal applies. An array joins
    its elements with commas, printing [null] and [undefined] elements as the
    empty string; every plain object prints as [[object Object]]. *)
Fixpoint toStr (v : JsVal) : string :=
  match v with
  | JUndefined => "undefined"
  | JNull => "null"
  | JBool true => "true"
  | JBool false => "false"
  | JNum n => pretty n
  | JStr s => s
  | JArr elems =>
      (fix join (l : list JsVal) : string :=
         match l with
         | [] => ""
         | x :: r =>
             let item := match x with
                         | JUndefined | JNull => ""
                         | _ => toStr x
                         end in
             match r with
             | [] => item
             | _ :: _ => item +:+ "," +:+ join r
             end
         end) elems
  | JObj _ => "[object Object]"
  end.

(** [s || ""] and [if (s)] on an optional string: absent and empty are falsy. *)
Definition truthyStr (o : option string) : bool :=
  match o with
  | Some (String _ _) => true
  | _ => false
  end.

Definition orEmpty (o : option string) : string :=
  match o with
  | Some s => s
  | None => ""
  end.

(** [a || b] on optional strings. *)
Definition orElse (a : option string) (b : string) : string :=
  if truthyStr a then orEmpty a else b.

Definition isDigit (c : ascii) : bool :=
  (48 <=? nat_of_ascii c)%nat && (nat_of_ascii c <=? 57)%nat.

Definition digitVal (c : ascii) : N := N.of_nat (nat_of_ascii c - 48).

Fixpoint digitsVal (s : string) (acc : N) : option N :=
  match s with
  | EmptyString => Some acc
  | String c r => if isDigit c then digitsVal r (10 * acc + digitVal c)%N else None
  end.

(** A property name is an array index when it is the canonical decimal form
    of an integer below 2^32 - 1: such names are enumerated first. *)
Definition arrayIndex (k : string) : option N :=
  match k with
  | EmptyString => None
  | String c r =>
      if (Ascii.eqb c "0" && negb (String.eqb r ""))%bool then None
      else match digitsVal k 0%N with
           | Some n => if (n <? 4294967295)%N then Some n else None
           | None => None
           end
  end.

Definition indexProps (o : JsObject) : list (N * (string * JsVal)) :=
  omap (fun p => match arrayIndex p.1 with
                 | Some n => Some (n, p)
                 | None => None
                 end) o.

Definition namedProps (o : JsObject) : JsObject :=
  filter (fun p => arrayIndex p.1 = None) o.

Definition indexLe (a b : N * (string * JsVal)) : Prop := (a.1 <= b.1)%N.

#[global] Instance indexLe_dec : RelDecision indexLe :=
  fun a b => decide (a.1 <= b.1)%N.

(** The order in which [for (const key in o)] visits the properties of a
    plain object: array indices ascending, then the other names in creation
    order. *)
Definition forInObject (o : JsObject) : JsObject :=
  (merge_sort indexLe (indexProps o)).*2 ++ namedProps o.

Fixpoint indexed (i : nat) (l : list JsVal) : JsObject :=
  match l with
  | [] => []
  | x :: r => (pretty i, x) :: indexed (S i) r
  end.

Fixpoint chars (i : nat) (s : string) : JsObject :=
  match s with
  | EmptyString => []
  | String c r => (pretty i, JStr (String c "")) :: chars (S i) r
  end.

(** [for (const key in v)] with [v[key]] for any value: objects, arrays and
    strings have enumerable properties, the other values have none. *)
Definition forIn (v : JsVal) : JsObject :=
  match v with
  | JObj o => forInObject o
  | JArr l => indexed 0 l
  | JStr s => chars 0 s
  | _ => []
  end.

(** [o[k] = v] on a property list: an existing property keeps its place. *)
Fixpoint objSet (o : JsObject) (k : string) (v : JsVal) : JsObject :=
  match o with
  | [] => [(k, v)]
  | (k', v') :: r => if String.eqb k k' then (k, v) :: r else (k', v') :: objSet r k v
  end.

(** *** A parser for a fragment of JSON

    [JSON.parse] is the platform's. The interceptor below takes it as a
    parameter; [parseJson] instantiates that parameter wherever a statement is
    evaluated on a concrete body. It follows the JSON grammar for white
    space, objects, arrays, strings with the two-character escapes, the three
    literals and integers of magnitude below 2^53, and builds objects the way
    [JSON.parse] does (a repeated name overwrites the earlier value in
    place). Texts with a [\u] escape, a fraction, an exponent or a larger
    integer lie outside the fragment and are not used as inputs. *)

(** The double quote, and a name or string value between quotes. *)
Definition dquote : ascii := ascii_of_nat 34.

Definition quoted (s : string) : string := String dquote (s +:+ String dquote "").

Definition isWs (c : ascii) : bool :=
  let n := N_of_ascii c in
  ((n =? 32) || (n =? 9) || (n =? 10) || (n =? 13))%N.

Fixpoint skipWs (s : string) : string :=
  match s with
  | EmptyString => s
  | String c r => if isWs c then skipWs r else s
  end.

Definition unescape (e : ascii) : option ascii :=
  if Ascii.eqb e dquote then Some e
  else if Ascii.eqb e "\" then Some e
  else if Ascii.eqb e "/" then Some e
  else if Ascii.eqb e "b" then Some (ascii_of_nat 8)
  else if Ascii.eqb e "f" then Some (ascii_of_nat 12)
  else if Ascii.eqb e "n" then Some (ascii_of_nat 10)
  else if Ascii.eqb e "r" then Some (ascii_of_nat 13)
  else if Ascii.eqb e "t" then Some (ascii_of_nat 9)
  else None.

(** The rest of a string literal, after its opening quote. *)
Fixpoint parseString (s : string) (acc : list ascii) : option (string * string) :=
  match s with
  | EmptyString => None
  | String c r =>
      if Ascii.eqb c dquote then Some (string_of_list_ascii (rev acc), r)
      else if Ascii.eqb c "\" then
        match r with
        | EmptyString => None
        | String e r' =>
            match unescape e with
            | Some c' => parseString r' (c' :: acc)
            | None => None
            end
        end
      else if (N_of_ascii c <? 32)%N then None
      else parseString r (c :: acc)
  end.

Fixpoint spanDigits (s : string) : string * string :=
  match s with
  | EmptyString => ("", "")
  | String c r =>
      if isDigit c then let '(ds, rest) := spanDigits r in (String c ds, rest)
      else ("", s)
  end.

Definition startsFraction (s : string) : bool :=
  match s with
  | String c _ => Ascii.eqb c "." || Ascii.eqb c "e" || Ascii.eqb c "E"
  | EmptyString => false
  end.

Definition parseNumber (s : string) : option (JsVal * string) :=
  let '(neg, s1) := match s with
                    | String c r => if Ascii.eqb c "-" then (true, r) else (false, s)
                    | EmptyString => (false, s)
                    end in
  let '(ds, rest) := spanDigits s1 in
  match ds with
  | EmptyString => None
  | String d dr =>
      if (Ascii.eqb d "0" && negb (String.eqb dr ""))%bool then None
      else if startsFraction rest then None
      else match digitsVal ds 0%N with
           | Some n =>
               if (n <? 9007199254740992)%N
               then Some (JNum (if neg : bool then - Z.of_N n else Z.of_N n)%Z, rest)
               else None
           | None => None
           end
  end.

Fixpoint dropPrefix (p s : string) : option string :=
  match p, s with
  | EmptyString, _ => Some s
  | String a p', String b s' => if Ascii.eqb a b then dropPrefix p' s' else None
  | String _ _, EmptyString => None
  end.

Fixpoint parseValue (fuel : nat) (s : string) : option (JsVal * string) :=
  match fuel with
  | O => None
  | S fuel' =>
      match skipWs s with
      | EmptyString => None
      | String c r =>
          if Ascii.eqb c "{" then
            match skipWs r with
            | String c' r' =>
                if Ascii.eqb c' "}" then Some (JObj [], r')
                else parseMembers fuel' r []
            | EmptyString => None
            end
          else if Ascii.eqb c "[" then
            match skipWs r with
            | String c' r' =>
                if Ascii.eqb c' "]" then Some (JArr [], r')
                else parseElements fuel' r []
            | EmptyString => None
            end
          else if Ascii.eqb c dquote then
            match parseString r [] with
            | Some (str, rest) => Some (JStr str, rest)
            | None => None
            end
          else if Ascii.eqb c "t" then
            match dropPrefix "rue" r with
            | Some rest => Some (JBool true, rest)
            | None => None
            end
          else if Ascii.eqb c "f" then
            match dropPrefix "alse" r with
            | Some rest => Some (JBool false, rest)
            | None => None
            end
          else if Ascii.eqb c "n" then
            match dropPrefix "ull" r with
            | Some rest => Some (JNull, rest)
            | None => None
            end
          else parseNumber (String c r)
      end
  end
with parseMembers (fuel : nat) (s : string) (acc : JsObject) : option (JsVal * string) :=
  match fuel with
  | O => None
  | S fuel' =>
      match skipWs s with
      | String c r =>
          if Ascii.eqb c dquote then
            match parseString r [] with
            | Some (k, r1) =>
                match skipWs r1 with
                | String c2 r2 =>
                    if Ascii.eqb c2 ":" then
                      match parseValue fuel' r2 with
                      | Some (v, r3) =>
                          match skipWs r3 with
                          | String c4 r4 =>
                              if Ascii.eqb c4 "," then parseMembers fuel' r4 (objSet acc k v)
                              else if Ascii.eqb c4 "}" then Some (JObj (objSet acc k v), r4)
                              else None
                          | EmptyString => None
                          end
                      | None => None
                      end
                    else None
                | EmptyString => None
                end
            | None => None
            end
          else None
      | EmptyString => None
      end
  end
with parseElements (fuel : nat) (s : string) (acc : list JsVal) : option (JsVal * string) :=
  match fuel with
  | O => None
  | S fuel' =>
      match parseValue fuel' s with
      | Some (v, r1) =>
          match skipWs r1 with
          | String c r2 =>
              if Ascii.eqb c "," then parseElements fuel' r2 (acc ++ [v])
              else if Ascii.eqb c "]" then Some (JArr (acc ++ [v]), r2)
              else None
          | EmptyString => None
          end
      | None => None
      end
  end.

(** [JSON.parse(s)] on the fragment; [None] is the [SyntaxError]. *)
Definition parseJson (s : string) : option JsVal :=
  match parseValue (S (String.length s)) s with
  | Some (v, rest) => if String.eqb (skipWs rest) "" then Some v else None
  | None => None
  end.

End Js.

(* ===================================================================== *)
(** ** The state the code runs in                                         *)
(* ===================================================================== *)

Module Runtime.
Import Js.

(** [res.data] of an outgoing request as the request interceptor sees it
    (axios serialises the body after the request interceptors have run):
    absent, a string, or any other value whose property [0] is not the
    string ["{"] (the plain objects the callers of [post] and [put] pass). *)
Inductive RequestData : Type :=
  | DataAbsent
  | DataString (s : string)
  | DataOther.

(** [InternalAxiosRequestConfig], the fields the code reads or writes.
    [signal] is the identity of the [AbortController] whose signal is
    attached. *)
Record RequestConfig : Type := mkConfig {
  method : option string;
  url : option string;
  params : option JsObject;
  data : RequestData;
  headers : option (gmap string string);
  signal : option nat
}.

(** [ServerResult<T>] as it arrives: the body of a response, each field
    possibly missing; [{}] has none. *)
Record ServerResult : Type := mkResult {
  code : option Z;
  message : option string;
  result : JsVal
}.

Definition emptyObject : ServerResult :=
  {| code := None; message := None; result := JUndefined |}.

(** [AxiosResponse]. *)
Record AxiosResponse : Type := mkResponse {
  response_data : option ServerResult;
  status : Z;
  response_config : RequestConfig
}.

(** What a rejected promise carries: a [CanceledError] (the one
    [axios.isCancel] recognises), any other [AxiosError] (network failure,
    timeout, HTTP error status), or an exception of the language. *)
Inductive ErrorKind : Type := CanceledError | AxiosError | SyntaxError | TypeError.

Record ErrorObj : Type := mkError {
  kind : ErrorKind;
  error_data : option ServerResult;
  error_config : option RequestConfig
}.

Definition syntaxError : ErrorObj :=
  {| kind := SyntaxError; error_data := None; error_config := None |}.

Definition typeError : ErrorObj :=
  {| kind := TypeError; error_data := None; error_config := None |}.

(** The values handed from one interceptor to the next. *)
Inductive Value : Type :=
  | VConfig (c : RequestConfig)
  | VResponse (r : AxiosResponse)
  | VError (e : ErrorObj)
  | VData (d : option ServerResult).

(** A call of the notifier, [message.error(content)] or
    [message.error({ content, key })]. *)
Record Notice : Type := mkNotice {
  content : string;
  key : option string
}.

Record ConsoleEntry : Type := mkEntry {
  level : string;
  label : string;
  argument : option string
}.

(** The callback of the one [setTimeout] in the code. *)
Inductive TimerAction : Type := AssignHref (target : string).

Record World : Type := mkWorld {
  abortControllerMap : gmap string nat;   (* this.abortControllerMap *)
  aborted : gset nat;                     (* controllers whose abort() ran *)
  allocated : nat;                        (* controllers created so far *)
  localStorage : gmap string string;
  notices : list Notice;                  (* calls of message.error *)
  console : list ConsoleEntry;
  href : string;                          (* window.location.href *)
  timers : list (nat * TimerAction)       (* pending setTimeout callbacks *)
}.

Definition withMap (f : gmap string nat -> gmap string nat) (w : World) : World :=
  mkWorld (f (abortControllerMap w)) (aborted w) (allocated w) (localStorage w)
          (notices w) (console w) (href w) (timers w).

Definition withAborted (f : gset nat -> gset nat) (w : World) : World :=
  mkWorld (abortControllerMap w) (f (aborted w)) (allocated w) (localStorage w)
          (notices w) (console w) (href w) (timers w).

Definition withAllocated (n : nat) (w : World) : World :=
  mkWorld (abortControllerMap w) (aborted w) n (localStorage w)
          (notices w) (console w) (href w) (timers w).

Definition withStorage (f : gmap string string -> gmap string string) (w : World) : World :=
  mkWorld (abortControllerMap w) (aborted w) (allocated w) (f (localStorage w))
          (notices w) (console w) (href w) (timers w).

Definition withNotices (l : list Notice) (w : World) : World :=
  mkWorld (abortControllerMap w) (aborted w) (allocated w) (localStorage w)
          l (console w) (href w) (timers w).

Definition withConsole (l : list ConsoleEntry) (w : World) : World :=
  mkWorld (abortControllerMap w) (aborted w) (allocated w) (localStorage w)
          (notices w) l (href w) (timers w).

Definition withHref (h : string) (w : World) : World :=
  mkWorld (abortControllerMap w) (aborted w) (allocated w) (localStorage w)
          (notices w) (console w) h (timers w).

Definition withTimers (l : list (nat * TimerAction)) (w : World) : World :=
  mkWorld (abortControllerMap w) (aborted w) (allocated w) (localStorage w)
          (notices w) (console w) (href w) l.

(** *** Statements: state passing with exceptions *)

Inductive Completion (A : Type) : Type :=
  | Normal (a : A)
  | Throw (e : ErrorObj).
Arguments Normal {A} a.
Arguments Throw {A} e.

Definition M (A : Type) : Type := World -> Completion A * World.

Definition ret {A} (a : A) : M A := fun w => (Normal a, w).

Definition throw {A} (e : ErrorObj) : M A := fun w => (Throw e, w).

Definition bind {A B} (m : M A) (k : A -> M B) : M B :=
  fun w => match m w with
           | (Normal a, w') => k a w'
           | (Throw e, w') => (Throw e, w')
           end.

#[global] Instance M_ret : MRet M := @ret.
#[global] Instance M_bind : MBind M := fun A B k m => bind m k.

Definition modify (f : World -> World) : M unit := fun w => (Normal tt, f w).

Definition gets {A} (f : World -> A) : M A := fun w => (Normal (f w), w).

(** [for (const x of l) body(x)] *)
Fixpoint forOf {A} (l : list A) (body : A -> M unit) : M unit :=
  match l with
  | [] => ret tt
  | x :: r => body x ;; forOf r body
  end.

(** *** The platform *)

(** [new AbortController()] *)
Definition newAbortController : M nat :=
  fun w => (Normal (allocated w), withAllocated (S (allocated w)) w).

(** [controller.abort()] *)
Definition abort (controller : nat) : M unit :=
  modify (withAborted (fun s => {[controller]} ∪ s)).

Definition mapGet (k : string) : M (option nat) := gets (fun w => abortControllerMap w !! k).
Definition mapSet (k : string) (c : nat) : M unit := modify (withMap (insert k c)).
Definition mapDelete (k : string) : M unit := modify (withMap (delete k)).
Definition mapClear : M unit := modify (withMap (fun _ => ∅)).
Definition mapEntries : M (list (string * nat)) := gets (fun w => map_to_list (abortControllerMap w)).

Definition consoleLog (lvl lbl : string) (arg : option string) : M unit :=
  modify (fun w => withConsole (console w ++ [mkEntry lvl lbl arg]) w).

Definition messageError (n : Notice) : M unit :=
  modify (fun w => withNotices (notices w ++ [n]) w).

Definition localStorageGetItem (k : string) : M (option string) :=
  gets (fun w => localStorage w !! k).

(** Modelled from the spec: [getLocalInfo] of the package [@south/utils],
    which is not among the sources. The token store is "get(key) -> string |
    empty"; the import comment in index.ts says it reads the browser's local
    storage. *)
Definition getLocalInfo (k : string) : M (option string) :=
  gets (fun w => localStorage w !! k).

(** Modelled from the spec: [removeLocalInfo] of [@south/utils], "remove(key)"
    on the same store. *)
Definition removeLocalInfo (k : string) : M unit :=
  modify (withStorage (delete k)).

(** [s.includes(t)] *)
Definition includes (t s : string) : bool :=
  match String.index 0 t s with
  | Some _ => true
  | None => false
  end.

(** [window.location.hash = h]: the fragment of the current address is
    replaced. *)
Definition beforeHash (address : string) : string :=
  match String.index 0 "#" address with
  | Some i => String.substring 0 i address
  | None => address
  end.

Definition assignHash (h : string) : M unit :=
  modify (fun w => withHref (beforeHash (href w) +:+ "#" +:+ h) w).

Definition setTimeout (action : TimerAction) (ms : nat) : M unit :=
  modify (fun w => withTimers (timers w ++ [(ms, action)]) w).

Definition runAction (a : TimerAction) (w : World) : World :=
  match a with
  | AssignHref target => withHref target w
  end.

(** The event loop reaching the pending timers. *)
Definition fireTimers (w : World) : World :=
  withTimers [] (fold_left (fun w' t => runAction t.2 w') (timers w) w).

(** *** Promises *)

Inductive Settled : Type :=
  | Fulfilled (v : Value)
  | Rejected (e : ErrorObj).

(** [promise.then(onFulfilled, onRejected)] on a settled promise: the handler
    of the matching side runs; what it returns fulfils the new promise, what
    it throws rejects it; a missing handler passes the settlement on. *)
Definition then_ (p : Settled)
    (onFulfilled : option (Value -> M Value))
    (onRejected : option (ErrorObj -> M Value)) : M Settled :=
  fun w =>
    match p with
    | Fulfilled v =>
        match onFulfilled with
        | Some f => match f v w with
                    | (Normal v', w') => (Normal (Fulfilled v'), w')
                    | (Throw e, w') => (Normal (Rejected e), w')
                    end
        | None => (Normal p, w)
        end
    | Rejected e =>
        match onRejected with
        | Some g => match g e w with
                    | (Normal v', w') => (Normal (Fulfilled v'), w')
                    | (Throw e', w') => (Normal (Rejected e'), w')
                    end
        | None => (Normal p, w)
        end
    end.

End Runtime.

(* ===================================================================== *)
(** ** request.ts: class AxiosRequest                                     *)
(* ===================================================================== *)

Module AxiosRequest.
Import Js Runtime.

(** [RequestInterceptors<AxiosResponse>] of types.ts: four optional hooks.
    The two error hooks are typed [=> void] there; a promise is fulfilled
    with whatever they return. *)
Record RequestInterceptors : Type := mkInterceptors {
  requestInterceptors : option (RequestConfig -> M RequestConfig);
  requestInterceptorsCatch : option (ErrorObj -> M Value);
  responseInterceptors : option (AxiosResponse -> M AxiosResponse);
  responseInterceptorsCatch : option (ErrorObj -> M Value)
}.

(** The argument of [cancelRequest]: [string | string[]]. *)
Inductive UrlArg : Type :=
  | Url (u : string)
  | Urls (l : list string).

(** [cancelRequest(url)], lines 131-141. *)
Definition cancelRequest (url : UrlArg) : M unit :=
  let urlList := match url with
                 | Urls l => l
                 | Url u => [u]
                 end in
  forOf urlList (fun _url =>
    found ← mapGet _url;
    match found with
    | Some controller => abort controller
    | None => mret tt
    end;;
    mapDelete _url).

(** [cancelAllRequest()], lines 118-126. The loop visits the entries of the
    map; the order of the visits does not show in the state, aborting being
    an insertion into a set. *)
Definition cancelAllRequest : M unit :=
  entries ← mapEntries;
  forOf entries (fun entry => abort entry.2);;
  mapClear.

Definition setSignal (controller : nat) (res : RequestConfig) : RequestConfig :=
  mkConfig (method res) (url res) (params res) (data res) (headers res) (Some controller).

(** [s[0] === c] and [s[s.length - 1] === c] on a string. The last
    character of a string is the byte [c] in its UTF-8 form exactly when its
    last UTF-16 unit is [c], for [c] in ASCII. *)
Definition firstIs (c : ascii) (s : string) : bool :=
  match String.get 0 s with
  | Some c' => Ascii.eqb c' c
  | None => false
  end.

Definition lastIs (c : ascii) (s : string) : bool :=
  match String.get (String.length s - 1) s with
  | Some c' => Ascii.eqb c' c
  | None => false
  end.

(** The condition of lines 57-61 and the argument of [JSON.parse] when it
    holds. The empty string is falsy. *)
Definition jsonText (d : RequestData) : option string :=
  match d with
  | DataString s =>
      if negb (String.eqb s "") && firstIs "{" s && lastIs "}" s then Some s else None
  | DataAbsent | DataOther => None
  end.

Definition lift {A} (c : Completion A) : M A := fun w => (c, w).

Section Instance.

(** [JSON.parse]; [None] when it throws its [SyntaxError]. *)
Variable JSON_parse : string -> option JsVal.

(** [config.interceptors] *)
Variable interceptorsObj : option RequestInterceptors.

(** The string built in the local variable [url], lines 42-68. *)
Definition requestKey (res : RequestConfig) : Completion string :=
  let url0 := orElse (method res) "" in
  let url1 := if truthyStr (url res) then url0 +:+ "^" +:+ orEmpty (url res) else url0 in
  let url2 := match params res with
              | Some ps =>
                  fold_left (fun acc p => acc +:+ "&" +:+ p.1 +:+ "=" +:+ toStr p.2)
                            (forInObject ps) url1
              | None => url1
              end in
  match jsonText (data res) with
  | Some text =>
      match JSON_parse text with
      | Some obj =>
          Normal (fold_left (fun acc p => acc +:+ "#" +:+ p.1 +:+ "=" +:+ toStr p.2)
                            (forIn obj) url2)
      | None => Throw syntaxError
      end
  | None => Normal url2
  end.

(** The global request interceptor, lines 38-83. *)
Definition requestFulfilled (res : RequestConfig) : M RequestConfig :=
  controller ← newAbortController;
  let res := setSignal controller res in
  url ← lift (requestKey res);
  existing ← mapGet url;
  match existing with
  | Some _ =>
      consoleLog "warn" "取消重复请求：" (Some url);;
      cancelRequest (Url url)
  | None => mapSet url controller
  end;;
  mret res.

(** [(err: object) => err], lines 85 and 112. *)
Definition requestRejected (err : ErrorObj) : M Value := mret (VError err).
Definition responseRejected (err : ErrorObj) : M Value := mret (VError err).

(** [res.config] and [res.data] of whatever reaches the last response
    interceptor. *)
Definition valueConfig (v : Value) : option RequestConfig :=
  match v with
  | VResponse r => Some (response_config r)
  | VError e => error_config e
  | VConfig _ | VData _ => None
  end.

Definition valueData (v : Value) : option ServerResult :=
  match v with
  | VResponse r => response_data r
  | VError e => error_data e
  | VConfig _ | VData _ => None
  end.

(** The global response interceptor, lines 103-110. Reading [url] of an
    undefined [res.config] is a [TypeError]. *)
Definition responseFulfilled (res : Value) : M Value :=
  match valueConfig res with
  | None => throw typeError
  | Some config =>
      let url := orElse (url config) "" in
      mapDelete url;;
      mret (VData (valueData res))
  end.

(** A handler of configs or of responses as a handler of values. With the
    hooks of [creteRequest], which do not throw, a request handler is only
    entered with a config, and the caller's response handler is only entered
    with what the transport resolves with, a response; on anything else the
    value is passed on. *)
Definition onConfig (f : RequestConfig -> M RequestConfig) (v : Value) : M Value :=
  match v with
  | VConfig c => c' ← f c; mret (VConfig c')
  | _ => mret v
  end.

Definition onResponse (f : AxiosResponse -> M AxiosResponse) (v : Value) : M Value :=
  match v with
  | VResponse r => r' ← f r; mret (VResponse r')
  | _ => mret v
  end.

(** The request side of the chain wired by the constructor. axios runs the
    request interceptors in the reverse of the order of their [use] calls
    (line 35: instance request, then global request). *)
Definition requestChain (config : RequestConfig) : M Settled :=
  s ← then_ (Fulfilled (VConfig config))
            (onConfig <$> (interceptorsObj ≫= requestInterceptors))
            (interceptorsObj ≫= requestInterceptorsCatch);
  then_ s (Some (onConfig requestFulfilled)) (Some requestRejected).

(** The response side: the caller's hooks, then the global interceptor. *)
Definition responseChain (outcome : Settled) : M Settled :=
  s ← then_ outcome
            (onResponse <$> (interceptorsObj ≫= responseInterceptors))
            (interceptorsObj ≫= responseInterceptorsCatch);
  then_ s (Some responseFulfilled) (Some responseRejected).

(** The transport between the two sides: the adapter answers a config that
    was sent; a rejection of the request side skips it, and axios cannot send
    what is not a config. *)
Definition dispatchRequest (adapter : RequestConfig -> Settled) (s : Settled) : Settled :=
  match s with
  | Fulfilled (VConfig c) => adapter c
  | Fulfilled _ => Rejected typeError
  | Rejected e => Rejected e
  end.

(** [this.instance.request(config)]: the promise handed to the caller, once
    settled. *)
Definition request (adapter : RequestConfig -> Settled) (config : RequestConfig) : M Settled :=
  s ← requestChain config;
  responseChain (dispatchRequest adapter s).

(** The options of a call: an axios config without its method and url. *)
Definition withVerb (verb u : string) (d : RequestData) (options : RequestConfig) : RequestConfig :=
  mkConfig (Some verb) (Some u) (params options) d (headers options) (signal options).

(** [get], [post], [put], [delete], lines 147-187. axios's helpers of these
    names set [method] to the lower-case verb and [url], and for [post] and
    [put] [data], over the config they are given. *)
Definition get adapter (u : string) (options : RequestConfig) : M Settled :=
  request adapter (withVerb "get" u (data options) options).

Definition post adapter (u : string) (options : RequestData) (config : RequestConfig) : M Settled :=
  request adapter (withVerb "post" u options config).

Definition put adapter (u : string) (options : RequestData) (config : RequestConfig) : M Settled :=
  request adapter (withVerb "put" u options config).

Definition delete adapter (u : string) (options : RequestConfig) : M Settled :=
  request adapter (withVerb "delete" u (data options) options).

End Instance.

End AxiosRequest.

(* ===================================================================== *)
(** ** index.ts: creteRequest and handleError                             *)
(* ===================================================================== *)

Module CreateRequest.
Import Js Runtime.

Definition enMsg : string := "Insufficient permissions, please log in again!".
Definition zhMsg : string := "权限不足，请重新登录！".

(** [handleError(error, content?)], lines 116-124. *)
Definition handleError (error : option string) (content : option string) : M unit :=
  consoleLog "error" "错误信息:" error;;
  messageError {| content := orElse content (orElse error "服务器错误");
                  key := Some "error" |}.

Definition setHeaders (h : gmap string string) (res : RequestConfig) : RequestConfig :=
  mkConfig (method res) (url res) (params res) (data res) (Some h) (signal res).

Definition setErrorData (d : ServerResult) (e : ErrorObj) : ErrorObj :=
  mkError (kind e) (Some d) (error_config e).

(** [axios.isCancel(err)] *)
Definition isCancel (err : ErrorObj) : bool :=
  match kind err with
  | CanceledError => true
  | _ => false
  end.

Section Hooks.

Variable tokenKey : string.

(** Lines 26-35. *)
Definition requestInterceptors (res : RequestConfig) : M RequestConfig :=
  stored ← getLocalInfo tokenKey;
  let tokenLocal := orElse stored "" in
  match headers res with
  | Some h =>
      if truthyStr (Some tokenLocal)
      then mret (setHeaders (<["Authorization" := tokenLocal]> h) res)
      else mret res
  | None => mret res
  end.

(** Lines 37-42. *)
Definition requestInterceptorsCatch (err : ErrorObj) : M Value :=
  messageError {| content := "请求超时！"; key := None |};;
  mret (VError err).

(** Lines 44-92. *)
Definition responseInterceptors (res : AxiosResponse) : M AxiosResponse :=
  let data := response_data res in
  if bool_decide (data ≫= code = Some 401%Z) then
    lang ← localStorageGetItem "lang";
    let msg := if bool_decide (lang = Some "en") then enMsg else zhMsg in
    removeLocalInfo tokenKey;;
    messageError {| content := msg; key := Some "error" |};;
    consoleLog "error" "错误信息:" (Some (orElse (data ≫= message) msg));;
    url ← gets href;
    (if includes "#" url
     then assignHash "/login"
     else setTimeout (AssignHref "/login") 1000);;
    mret res
  else if negb (bool_decide (data ≫= code = Some 200%Z)) then
    handleError (data ≫= message) None;;
    mret res
  else mret res.

(** Lines 94-106. *)
Definition responseInterceptorsCatch (err : ErrorObj) : M Value :=
  if isCancel err then
    mret (VError (setErrorData (default emptyObject (error_data err)) err))
  else
    handleError (Some "服务器错误！") None;;
    mret (VError err).

(** The [interceptors] that [creteRequest(url, tokenKey)] passes to
    [new AxiosRequest]. *)
Definition creteRequest : AxiosRequest.RequestInterceptors :=
  {| AxiosRequest.requestInterceptors := Some requestInterceptors;
     AxiosRequest.requestInterceptorsCatch := Some requestInterceptorsCatch;
     AxiosRequest.responseInterceptors := Some responseInterceptors;
     AxiosRequest.responseInterceptorsCatch := Some responseInterceptorsCatch |}.

End Hooks.

End CreateRequest.

(* ===================================================================== *)
(** ** utils/request.ts and servers/system: the callers                   *)
(* ===================================================================== *)

Module UtilsRequest.
Import Js Runtime.

(** [TOKEN] of utils/config.ts, line 24. *)
Definition TOKEN : string := "admin_token".

Section Client.

Variable JSON_parse : string -> option JsVal.

(** The transport of the instance. *)
Variable adapter : RequestConfig -> Settled.

(** The headers object axios gives every config before the interceptors run:
    the defaults of the instance. *)
Variable defaults : gmap string string.

(** The interceptors of [request = creteRequest(baseURL, TOKEN)], line 18. *)
Definition interceptors : option AxiosRequest.RequestInterceptors :=
  Some (CreateRequest.creteRequest TOKEN).

(** The options objects the callers write: [{}] (also the default of the
    parameter) and [{ params: data }]. *)
Definition options (ps : option JsObject) : RequestConfig :=
  mkConfig None None ps DataAbsent (Some defaults) None.

(** [request.get], [request.post], [request.put], [request.delete]; the
    third parameter of [post] and [put] is left out by every caller. *)
Definition get (u : string) (opts : RequestConfig) : M Settled :=
  AxiosRequest.get JSON_parse interceptors adapter u opts.

Definition post (u : string) (body : RequestData) : M Settled :=
  AxiosRequest.post JSON_parse interceptors adapter u body (options None).

Definition put (u : string) (body : RequestData) : M Settled :=
  AxiosRequest.put JSON_parse interceptors adapter u body (options None).

Definition delete (u : string) (opts : RequestConfig) : M Settled :=
  AxiosRequest.delete JSON_parse interceptors adapter u opts.

End Client.

(** [cancelRequest(url)], lines 29-31, and [cancelAllRequest()], lines 37-39. *)
Definition cancelRequest (url : AxiosRequest.UrlArg) : M unit :=
  AxiosRequest.cancelRequest url.

Definition cancelAllRequest : M unit := AxiosRequest.cancelAllRequest.

End UtilsRequest.

(** The form data the callers pass as a body is a plain object with named
    fields: it has no property [0], and the request interceptor reads
    nothing else of it. *)
Definition formData (fields : Js.JsObject) : Runtime.RequestData := Runtime.DataOther.

(** servers/system/menu.ts *)
Module Menu.
Import Js Runtime.

Definition API_URL : string := "/authority/menu".

Section Api.

Variable JSON_parse : string -> option JsVal.
Variable adapter : RequestConfig -> Settled.
Variable defaults : gmap string string.

Definition getMenuPage (data : JsObject) : M Settled :=
  UtilsRequest.get JSON_parse adapter (API_URL +:+ "/page")
    (UtilsRequest.options defaults (Some data)).


Definition createMenu (data : JsObject) : M Settled :=
  UtilsRequest.post JSON_parse adapter defaults API_URL (formData data).



Definition getPermission (data : JsObject) : M Settled :=
  UtilsRequest.get JSON_parse adapter (API_URL +:+ "/tree")
    (UtilsRequest.options defaults (Some data)).

Definition savePermission (data : JsObject) : M Settled :=
  UtilsRequest.put JSON_parse adapter defaults (API_URL +:+ "/authorize/save") (formData data).

Definition getMenuList : M Settled :=
  UtilsRequest.get JSON_parse adapter "/menu/list" (UtilsRequest.options defaults None).

End Api.

End Menu.

(** servers/system/user.ts *)
Module User.
Import Js Runtime.

Definition API_URL : string := "/authority/user".

Section Api.

Variable JSON_parse : string -> option JsVal.
Variable adapter : RequestConfig -> Settled.
Variable defaults : gmap string string.

Definition getUserPage (data : JsObject) : M Settled :=
  UtilsRequest.get JSON_parse adapter (API_URL +:+ "/page")
    (UtilsRequest.options defaults (Some data)).

Definition getUserById (id : string) : M Settled :=
  UtilsRequest.get JSON_parse adapter (API_URL +:+ "/detail?id=" +:+ id)
    (UtilsRequest.options defaults None).

Definition createUser (data : JsObject) : M Settled :=
  UtilsRequest.post JSON_parse adapter defaults API_URL (formData data).

Definition updateUser (id : string) (data : JsObject) : M Settled :=
  UtilsRequest.put JSON_parse adapter defaults (API_URL +:+ "/" +:+ id) (formData data).

Definition deleteUser (id : string) : M Settled :=
  UtilsRequest.delete JSON_parse adapter (API_URL +:+ "/" +:+ id)
    (UtilsRequest.options defaults None).

Definition batchDeleteUser (data : JsObject) : M Settled :=
  UtilsRequest.post JSON_parse adapter defaults (API_URL +:+ "/batchDelete") (formData data).

End Api.

End User.

(* ===================================================================== *)
(** ** The vocabulary of the statements                                   *)
(* ===================================================================== *)

Import Js Runtime.

(** *** States *)

(** The state after a statement, and its completion. *)
Definition after {A} (m : M A) (w : World) : World := (m w).2.
Definition completion {A} (m : M A) (w : World) : Completion A := (m w).1.

(** [w'] differs from [w] in the registry and the aborted controllers at
    most. *)
Definition sameBrowser (w w' : World) : Prop :=
  allocated w' = allocated w ∧ localStorage w' = localStorage w ∧
  notices w' = notices w ∧ console w' = console w ∧
  href w' = href w ∧ timers w' = timers w.

(** [w'] has the registry, the aborted controllers and the allocation count
    of [w]. *)
Definition sameRegistry (w w' : World) : Prop :=
  abortControllerMap w' = abortControllerMap w ∧ aborted w' = aborted w ∧
  allocated w' = allocated w.

(** Every state the client reaches: the controllers in the registry were
    created by the client, are held under one key only, and have not been
    aborted; nothing was aborted that was not created. *)
Definition registryInv (w : World) : Prop :=
  (∀ k c, abortControllerMap w !! k = Some c → c < allocated w ∧ c ∉ aborted w) ∧
  (∀ k1 k2 c, abortControllerMap w !! k1 = Some c →
              abortControllerMap w !! k2 = Some c → k1 = k2) ∧
  (∀ c, c ∈ aborted w → c < allocated w).

(** The states of a client made by [creteRequest(url, tokenKey)]: it starts
    with an empty registry, and then requests are sent, transport outcomes
    arrive, and the two cancel methods are called, in any order. *)
Inductive reachable (JSON_parse : string -> option JsVal) (tokenKey : string) :
    World -> Prop :=
  | reach_new ls ns cs h ts :
      reachable JSON_parse tokenKey (mkWorld ∅ ∅ 0 ls ns cs h ts)
  | reach_send w config :
      reachable JSON_parse tokenKey w →
      reachable JSON_parse tokenKey
        (after (AxiosRequest.requestChain JSON_parse
                  (Some (CreateRequest.creteRequest tokenKey)) config) w)
  | reach_settle w outcome :
      reachable JSON_parse tokenKey w →
      reachable JSON_parse tokenKey
        (after (AxiosRequest.responseChain
                  (Some (CreateRequest.creteRequest tokenKey)) outcome) w)
  | reach_cancel w url :
      reachable JSON_parse tokenKey w →
      reachable JSON_parse tokenKey (after (AxiosRequest.cancelRequest url) w)
  | reach_cancelAll w :
      reachable JSON_parse tokenKey w →
      reachable JSON_parse tokenKey (after AxiosRequest.cancelAllRequest w).

(** One round of the loop of [cancelRequest]. *)
Definition cancelOne (_url : string) : M unit :=
  found ← mapGet _url;
  match found with
  | Some controller => abort controller
  | None => mret tt
  end;;
  mapDelete _url.

(** The keys [cancelRequest] visits: [Array.isArray(url) ? url : [url]]. *)
Definition urlList (url : AxiosRequest.UrlArg) : list string :=
  match url with
  | AxiosRequest.Urls l => l
  | AxiosRequest.Url u => [u]
  end.

(** A pending request is cancelled by aborting the controller whose signal
    it carries. *)
Definition cancelled (config : RequestConfig) (w : World) : Prop :=
  ∃ controller, signal config = Some controller ∧ controller ∈ aborted w.

(** *** The fingerprint *)

(** [sep + key + "=" + value] *)
Definition segment (sep : string) (p : string * JsVal) : string :=
  sep +:+ p.1 +:+ "=" +:+ toStr p.2.

Fixpoint segments (sep : string) (l : JsObject) : string :=
  match l with
  | [] => ""
  | p :: r => segment sep p +:+ segments sep r
  end.

(** The contract of the fingerprinter in the words of the specification:
    the method, then [^] and the url if there is one, then [&key=value] for
    each parameter, then [#key=value] for each top-level field of the body.
    [requestKey] above is the code; this is what it is compared with. *)
Definition fingerprint (method : string) (url : option string)
    (params bodyFields : JsObject) : string :=
  method
  +:+ (match url with
       | Some (String a u) => "^" +:+ String a u
       | _ => ""
       end)
  +:+ segments "&" params
  +:+ segments "#" bodyFields.

(** The parameters of a config in the order the loop of lines 51-53 visits
    them. *)
Definition paramList (res : RequestConfig) : JsObject :=
  match params res with
  | Some ps => forInObject ps
  | None => []
  end.

(** A string whose first character is [{] and whose last character is [}]. *)
Definition braced (text : string) : Prop := ∃ mid, text = "{" +:+ mid +:+ "}".

(** [s.toLowerCase()] on the letters of ASCII. *)
Definition toLower (c : ascii) : ascii :=
  let n := nat_of_ascii c in
  if (65 <=? n)%nat && (n <=? 90)%nat then ascii_of_nat (n + 32) else c.

Fixpoint toLowerCase (s : string) : string :=
  match s with
  | EmptyString => EmptyString
  | String c r => String (toLower c) (toLowerCase r)
  end.

(** *** Concrete inputs *)

(** A page under hash routing, the credential [tok-123] in the store, no
    request in flight. *)
Definition exampleWorld : World :=
  mkWorld ∅ ∅ 0 (<["token" := "tok-123"]> ∅) [] [] "http://localhost/#/dashboard" [].

(** [GET /authority/user/page?page=1&pageSize=20] *)
Definition pageQuery : RequestConfig :=
  mkConfig (Some "get") (Some "/authority/user/page")
           (Some [("page", JNum 1); ("pageSize", JNum 20)]) DataAbsent (Some ∅) None.

Definition pageKey : string := "get^/authority/user/page&page=1&pageSize=20".

Definition noOptions : RequestConfig := mkConfig None None None DataAbsent (Some ∅) None.

(** The body [{"a":1,"b":2}] of the specification's example. *)
Definition jsonAB : string := "{" +:+ quoted "a" +:+ ":1," +:+ quoted "b" +:+ ":2}".

(** [post("/x", text)] with a string body. *)
Definition postBody (text : string) : RequestConfig :=
  AxiosRequest.withVerb "post" "/x" (DataString text) noOptions.

(** A response with HTTP status 200 and the business code [c]. *)
Definition reply (c : Z) (msg : option string) (config : RequestConfig) : AxiosResponse :=
  mkResponse (Some (mkResult (Some c) msg JNull)) 200 config.

Definition exampleHooks : option AxiosRequest.RequestInterceptors :=
  Some (CreateRequest.creteRequest "token").

(** The state after the first of two identical requests was sent. *)
Definition onePending : World :=
  after (AxiosRequest.requestFulfilled parseJson pageQuery) exampleWorld.

(** A client with two requests in flight. *)
Definition twoPending : World :=
  mkWorld (<["get^/a" := 0]> (<["get^/b" := 1]> ∅)) ∅ 2 ∅ [] [] "http://localhost/" [].

(** *** Transports and outcomes *)

(** The config an outcome of the transport carries: that of the response,
    or that of the error. *)
Definition outcomeConfig (outcome : Settled) : option RequestConfig :=
  match outcome with
  | Fulfilled v => AxiosRequest.valueConfig v
  | Rejected e => error_config e
  end.

(** A transport that answers a config with a response to it or with an error
    about it, as the adapters of axios do. *)
Definition answers (adapter : RequestConfig -> Settled) : Prop :=
  ∀ c, (∃ r, adapter c = Fulfilled (VResponse r) ∧ response_config r = c) ∨
       (∃ e, adapter c = Rejected e ∧ error_config e = Some c).

(** A parameter or field as the fingerprint shows it: its name and the
    string its value is coerced to. *)
Definition coerced (p : string * JsVal) : string * string := (p.1, toStr p.2).

(** A transport that answers every config with a response of code 200. *)
Definition okAdapter (c : RequestConfig) : Settled :=
  Fulfilled (VResponse (reply 200 None c)).

(** The interceptors of [creteRequest(url, tokenKey)]. *)
Definition hooksOf (tokenKey : string) : option AxiosRequest.RequestInterceptors :=
  Some (CreateRequest.creteRequest tokenKey).

(** The state the request stage leaves when the key is computed. *)
Definition registered (key : string) (w : World) : World :=
  match abortControllerMap w !! key with
  | Some old =>
      withMap (delete key)
        (withAborted (fun s => {[old]} ∪ s)
           (withConsole (console w ++ [mkEntry "warn" "取消重复请求：" (Some key)])
              (withAllocated (S (allocated w)) w)))
  | None => withMap (insert key (allocated w)) (withAllocated (S (allocated w)) w)
  end.

(* ===================================================================== *)
(** ** Lemmas                                                             *)
(* ===================================================================== *)

Ltac run :=
  unfold after, completion, mbind, M_bind, mret, M_ret, bind, ret, throw,
    modify, gets, mapGet, mapSet, mapDelete, mapClear, mapEntries, abort,
    consoleLog, messageError, localStorageGetItem, getLocalInfo,
    removeLocalInfo, setTimeout, assignHash, newAbortController,
    AxiosRequest.lift in *;
  simpl in *.

Lemma sameBrowser_refl w : sameBrowser w w.
Proof. by repeat split. Qed.

Lemma sameBrowser_trans w1 w2 w3 :
  sameBrowser w1 w2 → sameBrowser w2 w3 → sameBrowser w1 w3.
Proof.
  unfold sameBrowser. intros (?&?&?&?&?&?) (?&?&?&?&?&?).
  repeat split; congruence.
Qed.

Lemma cancelOne_spec k w :
  ∃ w', cancelOne k w = (Normal tt, w') ∧
    abortControllerMap w' = delete k (abortControllerMap w) ∧
    (∀ c, c ∈ aborted w' ↔ c ∈ aborted w ∨ abortControllerMap w !! k = Some c) ∧
    sameBrowser w w'.
Proof.
  unfold cancelOne. run.
  destruct (abortControllerMap w !! k) as [c0|] eqn:E; simpl;
    eexists; (split; [reflexivity|]); simpl.
  - split; [done|]. split; [|by repeat split].
    intros c. rewrite elem_of_union, elem_of_singleton.
    split; [intros [->|?]; auto|intros [?|[= ->]]; auto].
  - split; [done|]. split; [|by repeat split].
    intros c. split; [auto|]. by intros [?|?].
Qed.

Lemma cancelLoop_spec l : ∀ w,
  ∃ w', forOf l cancelOne w = (Normal tt, w') ∧
    (∀ k, abortControllerMap w' !! k =
          if decide (k ∈ l) then None else abortControllerMap w !! k) ∧
    (∀ c, c ∈ aborted w' ↔
          c ∈ aborted w ∨ ∃ k, k ∈ l ∧ abortControllerMap w !! k = Some c) ∧
    sameBrowser w w'.
Proof.
  induction l as [|k r IH]; intros w.
  - exists w. simpl. split; [done|]. split; [|split; [|apply sameBrowser_refl]].
    + done.
    + intros c. split; [auto|]. intros [?|(k&Hk&_)]; [done|set_solver].
  - destruct (cancelOne_spec k w) as (w1 & E1 & Hm1 & Ha1 & Hb1).
    destruct (IH w1) as (w' & E' & Hm' & Ha' & Hb').
    exists w'. split.
    { simpl. unfold mbind, M_bind, bind. by rewrite E1. }
    split; [|split; [|by eapply sameBrowser_trans]].
    + intros k'. rewrite Hm', Hm1.
      destruct (decide (k' = k)) as [->|Hne].
      * rewrite lookup_delete_eq. repeat case_decide; set_solver.
      * rewrite lookup_delete_ne by done. repeat case_decide; set_solver.
    + intros c. rewrite Ha', Ha1, Hm1. split.
      * intros [[?|?]|(k'&Hk'&Hl)].
        -- by left.
        -- right. exists k. split; [set_solver|done].
        -- right. exists k'. split; [set_solver|].
           destruct (decide (k' = k)) as [->|Hne];
             [by rewrite lookup_delete_eq in Hl|by rewrite lookup_delete_ne in Hl].
      * intros [?|(k'&Hk'&Hl)]; [by left; left|].
        destruct (decide (k' = k)) as [->|Hne]; [by left; right|].
        right. exists k'. split; [set_solver|by rewrite lookup_delete_ne].
Qed.

Lemma cancelRequest_spec url w :
  ∃ w', AxiosRequest.cancelRequest url w = (Normal tt, w') ∧
    (∀ k, abortControllerMap w' !! k =
          if decide (k ∈ urlList url) then None else abortControllerMap w !! k) ∧
    (∀ c, c ∈ aborted w' ↔
          c ∈ aborted w ∨ ∃ k, k ∈ urlList url ∧ abortControllerMap w !! k = Some c) ∧
    sameBrowser w w'.
Proof. apply (cancelLoop_spec (urlList url) w). Qed.

Lemma abortLoop_spec (l : list (string * nat)) : ∀ w,
  forOf l (fun entry => abort entry.2) w =
  (Normal tt, withAborted (fun s => list_to_set l.*2 ∪ s) w).
Proof.
  induction l as [|e r IH]; intros w.
  - simpl. unfold ret, withAborted. destruct w; simpl. f_equal. f_equal. set_solver.
  - simpl. run. rewrite IH. unfold withAborted. simpl. f_equal. f_equal. set_solver.
Qed.

Lemma cancelAllRequest_spec w :
  AxiosRequest.cancelAllRequest w =
  (Normal tt,
   withMap (fun _ => ∅)
     (withAborted (fun s => list_to_set (map_to_list (abortControllerMap w)).*2 ∪ s) w)).
Proof.
  unfold AxiosRequest.cancelAllRequest. run. by rewrite abortLoop_spec.
Qed.

Lemma elem_of_registry_values (m : gmap string nat) c :
  c ∈ (list_to_set (map_to_list m).*2 : gset nat) ↔ ∃ k, m !! k = Some c.
Proof.
  rewrite elem_of_list_to_set, list_elem_of_fmap. split.
  - intros ([k c'] & -> & Hin). exists k. by apply elem_of_map_to_list.
  - intros (k & Hk). exists (k, c). split; [done|]. by apply elem_of_map_to_list.
Qed.

Section RequestStage.

Variable JSON_parse : string -> option JsVal.

Lemma requestKey_setSignal c res :
  AxiosRequest.requestKey JSON_parse (AxiosRequest.setSignal c res) =
  AxiosRequest.requestKey JSON_parse res.
Proof. reflexivity. Qed.

Lemma requestFulfilled_fresh res key w :
  AxiosRequest.requestKey JSON_parse res = Normal key →
  abortControllerMap w !! key = None →
  AxiosRequest.requestFulfilled JSON_parse res w =
  (Normal (AxiosRequest.setSignal (allocated w) res),
   withMap (insert key (allocated w)) (withAllocated (S (allocated w)) w)).
Proof.
  intros Hk Hm. unfold AxiosRequest.requestFulfilled. run.
  rewrite requestKey_setSignal, Hk. simpl. by rewrite Hm.
Qed.

Lemma requestFulfilled_duplicate res key old w :
  AxiosRequest.requestKey JSON_parse res = Normal key →
  abortControllerMap w !! key = Some old →
  AxiosRequest.requestFulfilled JSON_parse res w =
  (Normal (AxiosRequest.setSignal (allocated w) res),
   withMap (delete key)
     (withAborted (fun s => {[old]} ∪ s)
        (withConsole (console w ++ [mkEntry "warn" "取消重复请求：" (Some key)])
           (withAllocated (S (allocated w)) w)))).
Proof.
  intros Hk Hm. unfold AxiosRequest.requestFulfilled. run.
  rewrite requestKey_setSignal, Hk. simpl. rewrite Hm. simpl.
  unfold AxiosRequest.cancelRequest. simpl. run. by rewrite Hm.
Qed.

Lemma requestFulfilled_throw res e w :
  AxiosRequest.requestKey JSON_parse res = Throw e →
  AxiosRequest.requestFulfilled JSON_parse res w =
  (Throw e, withAllocated (S (allocated w)) w).
Proof.
  intros Hk. unfold AxiosRequest.requestFulfilled. run.
  by rewrite requestKey_setSignal, Hk.
Qed.

End RequestStage.

(** *** The fingerprint *)

Lemma append_cons a s t : String a s +:+ t = String a (s +:+ t).
Proof. reflexivity. Qed.

Lemma append_nil_r s : s +:+ "" = s.
Proof. induction s as [|a s IH]; [done|by rewrite append_cons, IH]. Qed.

Lemma append_assoc s1 s2 s3 : (s1 +:+ s2) +:+ s3 = s1 +:+ s2 +:+ s3.
Proof. induction s1 as [|a s1 IH]; [done|by rewrite !append_cons, IH]. Qed.

Lemma length_append s1 s2 :
  String.length (s1 +:+ s2) = String.length s1 + String.length s2.
Proof. induction s1 as [|a s1 IH]; [done|rewrite append_cons; simpl; by rewrite IH]. Qed.

Lemma prefix_append s1 s2 : String.prefix s1 (s1 +:+ s2) = true.
Proof.
  induction s1 as [|a s1 IH]; [by destruct s2|].
  rewrite append_cons. simpl. destruct (ascii_dec a a); [done|congruence].
Qed.

Lemma fold_segments sep l : ∀ init,
  fold_left (fun acc p => acc +:+ sep +:+ p.1 +:+ "=" +:+ toStr p.2) l init =
  init +:+ segments sep l.
Proof.
  induction l as [|p r IH]; intros init; simpl.
  - by rewrite append_nil_r.
  - rewrite IH. unfold segment. by rewrite append_assoc.
Qed.

Lemma lastIs_cons x c a r :
  AxiosRequest.lastIs x (String c (String a r)) = AxiosRequest.lastIs x (String a r).
Proof.
  unfold AxiosRequest.lastIs.
  replace (String.length (String c (String a r)) - 1)
    with (S (String.length (String a r) - 1)) by (simpl; lia).
  reflexivity.
Qed.

Lemma lastIs_braced mid : ∀ c, AxiosRequest.lastIs "}" (String c (mid +:+ "}")) = true.
Proof.
  induction mid as [|a mid IH]; intros c; [done|].
  by rewrite append_cons, lastIs_cons.
Qed.

Lemma lastIs_inv r : ∀ c,
  AxiosRequest.lastIs "}" (String c r) = true →
  (r = "" ∧ c = "}"%char) ∨ ∃ mid, r = mid +:+ "}".
Proof.
  induction r as [|a r IH]; intros c H.
  - left. split; [done|]. unfold AxiosRequest.lastIs in H. simpl in H.
    by apply Ascii.eqb_eq in H.
  - right. rewrite lastIs_cons in H.
    destruct (IH a H) as [[-> ->]|[mid ->]]; [by exists ""|by exists (String a mid)].
Qed.

Lemma jsonText_braced text :
  braced text → AxiosRequest.jsonText (DataString text) = Some text.
Proof.
  intros [mid ->]. unfold AxiosRequest.jsonText.
  change ("{" +:+ mid +:+ "}") with (String "{" (mid +:+ "}")).
  by rewrite lastIs_braced.
Qed.

Lemma jsonText_Some d text :
  AxiosRequest.jsonText d = Some text → d = DataString text ∧ braced text.
Proof.
  destruct d as [|s|]; simpl; try done.
  destruct (negb (s =? "")%string && AxiosRequest.firstIs "{" s
            && AxiosRequest.lastIs "}" s) eqn:E; [|done].
  intros [= ->]. split; [done|].
  apply andb_prop in E as [E Hl]. apply andb_prop in E as [_ Hf].
  destruct text as [|c r]; [done|].
  unfold AxiosRequest.firstIs in Hf. simpl in Hf. apply Ascii.eqb_eq in Hf as ->.
  destruct (lastIs_inv r _ Hl) as [[_ ?]|[mid ->]]; [done|].
  by exists mid.
Qed.

Section Fingerprint.

Variable JSON_parse : string -> option JsVal.

Lemma requestKey_closed res :
  AxiosRequest.requestKey JSON_parse res =
  match AxiosRequest.jsonText (data res) with
  | Some text =>
      match JSON_parse text with
      | Some obj => Normal (fingerprint (orEmpty (method res)) (url res)
                                        (paramList res) (forIn obj))
      | None => Throw syntaxError
      end
  | None => Normal (fingerprint (orEmpty (method res)) (url res) (paramList res) [])
  end.
Proof.
  unfold AxiosRequest.requestKey, fingerprint, paramList.
  assert (orElse (method res) "" = orEmpty (method res)) as ->
    by (by destruct (method res) as [[|]|]).
  assert ((if truthyStr (url res)
           then orEmpty (method res) +:+ "^" +:+ orEmpty (url res)
           else orEmpty (method res)) =
          orEmpty (method res) +:+
          match url res with
          | Some (String a u) => "^" +:+ String a u
          | _ => ""
          end) as ->
    by (destruct (url res) as [[|]|]; simpl; by rewrite ?append_nil_r).
  assert (∀ init, match params res with
                  | Some ps =>
                      fold_left (fun acc p => acc +:+ "&" +:+ p.1 +:+ "=" +:+ toStr p.2)
                                (forInObject ps) init
                  | None => init
                  end = init +:+ segments "&" (match params res with
                                               | Some ps => forInObject ps
                                               | None => []
                                               end)) as ->
    by (intros init; destruct (params res); [apply fold_segments|by rewrite append_nil_r]).
  destruct (AxiosRequest.jsonText (data res)) as [text|].
  - destruct (JSON_parse text) as [obj|]; [|done].
    by rewrite fold_segments, !append_assoc.
  - simpl. by rewrite !append_assoc, append_nil_r.
Qed.

Lemma requestKey_not_url res key :
  AxiosRequest.requestKey JSON_parse res = Normal key →
  truthyStr (method res) = true ∨ truthyStr (url res) = true →
  key ≠ orElse (url res) "".
Proof.
  rewrite requestKey_closed. intros Hk Ht.
  assert (∃ rest, key = fingerprint (orEmpty (method res)) (url res) [] [] +:+ rest)
    as [rest ->].
  { unfold fingerprint in *. simpl. setoid_rewrite append_nil_r.
    destruct (AxiosRequest.jsonText (data res));
      [destruct (JSON_parse s); [|done]|]; injection Hk as <-; eexists;
      rewrite !append_assoc; reflexivity. }
  intros Heq. apply (f_equal String.length) in Heq.
  unfold fingerprint, orElse in Heq. simpl in Heq.
  rewrite append_nil_r, !length_append in Heq.
  destruct (url res) as [[|a u]|]; simpl in *.
  - destruct Ht as [Ht|]; [|done]. destruct (method res) as [[|]|]; simpl in *; done.
  - lia.
  - destruct Ht as [Ht|]; [|done]. destruct (method res) as [[|]|]; simpl in *; done.
Qed.

End Fingerprint.

(** *** The invariant of the registry *)

Lemma registryInv_init ls ns cs h ts : registryInv (mkWorld ∅ ∅ 0 ls ns cs h ts).
Proof.
  repeat split; simpl; intros *; rewrite ?lookup_empty; try done; set_solver.
Qed.

Lemma registryInv_delete k w :
  registryInv w → registryInv (withMap (delete k) w).
Proof.
  intros (H1 & H2 & H3). unfold registryInv. simpl. split; [|split; [|done]].
  - intros k' c Hl. apply lookup_delete_Some in Hl as [_ Hl]. eauto.
  - intros k1 k2 c Hl1 Hl2.
    apply lookup_delete_Some in Hl1 as [_ Hl1].
    apply lookup_delete_Some in Hl2 as [_ Hl2]. eauto.
Qed.

Lemma registryInv_cancelRequest url w :
  registryInv w → registryInv (after (AxiosRequest.cancelRequest url) w).
Proof.
  intros (H1 & H2 & H3).
  destruct (cancelRequest_spec url w) as (w' & E & Hm & Ha & Hb).
  unfold after. rewrite E. simpl.
  destruct Hb as (Hal & _). unfold registryInv. rewrite Hal.
  split; [|split].
  - intros k c. rewrite Hm. case_decide as Hin; [done|]. intros Hl.
    split; [by eapply H1|]. rewrite Ha. intros [?|(k' & Hk' & Hl')].
    + by eapply H1.
    + assert (k' = k) as -> by eauto. done.
  - intros k1 k2 c. rewrite !Hm. repeat case_decide; try done. eauto.
  - intros c. rewrite Ha. intros [?|(k & _ & Hl)]; [eauto|]. by eapply H1.
Qed.

Lemma registryInv_cancelAllRequest w :
  registryInv w → registryInv (after AxiosRequest.cancelAllRequest w).
Proof.
  intros (H1 & H2 & H3). unfold after. rewrite cancelAllRequest_spec.
  unfold registryInv. simpl. split; [|split].
  - intros k c. by rewrite lookup_empty.
  - intros k1 k2 c. by rewrite lookup_empty.
  - intros c. rewrite elem_of_union, elem_of_registry_values.
    intros [(k & Hl)|?]; [by eapply H1|eauto].
Qed.

Lemma registryInv_requestFulfilled JSON_parse res w :
  registryInv w → registryInv (after (AxiosRequest.requestFulfilled JSON_parse res) w).
Proof.
  intros (H1 & H2 & H3). unfold after.
  destruct (AxiosRequest.requestKey JSON_parse res) as [key|e] eqn:Hk.
  - destruct (abortControllerMap w !! key) as [old|] eqn:Hm.
    + rewrite (requestFulfilled_duplicate _ _ _ _ _ Hk Hm).
      unfold registryInv. simpl. split; [|split].
      * intros k c Hl. apply lookup_delete_Some in Hl as [Hne Hl].
        destruct (H1 _ _ Hl). split; [lia|].
        rewrite elem_of_union, elem_of_singleton. intros [->|?]; [|done].
        apply Hne. eauto.
      * intros k1 k2 c Hl1 Hl2.
        apply lookup_delete_Some in Hl1 as [_ Hl1].
        apply lookup_delete_Some in Hl2 as [_ Hl2]. eauto.
      * intros c. rewrite elem_of_union, elem_of_singleton.
        intros [->|Hc]; [destruct (H1 _ _ Hm); lia|]. specialize (H3 _ Hc). lia.
    + rewrite (requestFulfilled_fresh _ _ _ _ Hk Hm).
      unfold registryInv. simpl. split; [|split].
      * intros k c Hl. apply lookup_insert_Some in Hl as [[<- <-]|[_ Hl]].
        -- split; [lia|]. intros Hc. specialize (H3 _ Hc). lia.
        -- destruct (H1 _ _ Hl). split; [lia|done].
      * intros k1 k2 c Hl1 Hl2.
        apply lookup_insert_Some in Hl1 as [[<- <-]|[? Hl1]];
          apply lookup_insert_Some in Hl2 as [[<- ?]|[? Hl2]]; try done.
        -- destruct (H1 _ _ Hl2). lia.
        -- subst c. destruct (H1 _ _ Hl1). lia.
        -- eauto.
      * intros c Hc. specialize (H3 _ Hc). lia.
  - rewrite (requestFulfilled_throw _ _ _ _ Hk).
    unfold registryInv. simpl. split; [|split; [done|]].
    + intros k c Hl. destruct (H1 _ _ Hl). split; [lia|done].
    + intros c Hc. specialize (H3 _ Hc). lia.
Qed.

Lemma registryInv_responseFulfilled res w :
  registryInv w → registryInv (after (AxiosRequest.responseFulfilled res) w).
Proof.
  intros Hinv. unfold after, AxiosRequest.responseFulfilled.
  destruct (AxiosRequest.valueConfig res) as [config|]; [|done].
  run. by apply registryInv_delete.
Qed.

(** *** The caller's hooks *)

Section Hooks.

Variable tokenKey : string.

Lemma responseInterceptors_returns res w :
  completion (CreateRequest.responseInterceptors tokenKey res) w = Normal res.
Proof.
  unfold CreateRequest.responseInterceptors, CreateRequest.handleError. run.
  repeat case_bool_decide; simpl; try done;
    by destruct (includes "#" (href w)).
Qed.

Lemma requestInterceptors_spec res w :
  ∃ res', CreateRequest.requestInterceptors tokenKey res w = (Normal res', w) ∧
    method res' = method res ∧ url res' = url res ∧ params res' = params res ∧
    data res' = data res ∧ signal res' = signal res.
Proof.
  unfold CreateRequest.requestInterceptors. run.
  destruct (headers res) as [h|]; [|by exists res].
  destruct (orElse (localStorage w !! tokenKey) "");
    eexists; (split; [reflexivity|by simpl]).
Qed.

End Hooks.

Lemma responseChain_response tokenKey r w :
  completion (AxiosRequest.responseChain (Some (CreateRequest.creteRequest tokenKey))
                (Fulfilled (VResponse r))) w
  = Normal (Fulfilled (VData (response_data r))).
Proof.
  unfold completion, AxiosRequest.responseChain. simpl.
  unfold mbind, M_bind, bind, then_, AxiosRequest.onResponse. simpl.
  unfold mbind, M_bind, bind.
  pose proof (responseInterceptors_returns tokenKey r w) as Hr.
  unfold completion in Hr.
  destruct (CreateRequest.responseInterceptors tokenKey r w) as [c w1].
  simpl in Hr. subst c. reflexivity.
Qed.

Lemma responseChain_error tokenKey e config w :
  error_config e = Some config →
  completion (AxiosRequest.responseChain (Some (CreateRequest.creteRequest tokenKey))
                (Rejected e)) w
  = Normal (Fulfilled (VData (if CreateRequest.isCancel e
                              then Some (default emptyObject (error_data e))
                              else error_data e))).
Proof.
  intros He. unfold completion, AxiosRequest.responseChain. simpl.
  unfold mbind, M_bind, bind, then_, CreateRequest.responseInterceptorsCatch.
  destruct (CreateRequest.isCancel e); simpl;
    unfold AxiosRequest.responseFulfilled; simpl; by rewrite He.
Qed.

Lemma requestKey_ext JSON_parse res res' :
  method res' = method res → url res' = url res →
  params res' = params res → data res' = data res →
  AxiosRequest.requestKey JSON_parse res' = AxiosRequest.requestKey JSON_parse res.
Proof.
  intros Hm Hu Hp Hd. rewrite !requestKey_closed. unfold paramList.
  by rewrite Hm, Hu, Hp, Hd.
Qed.

Lemma requestChain_sends JSON_parse tokenKey config key w :
  AxiosRequest.requestKey JSON_parse config = Normal key →
  ∃ sent w1,
    AxiosRequest.requestChain JSON_parse (Some (CreateRequest.creteRequest tokenKey))
      config w = (Normal (Fulfilled (VConfig sent)), w1) ∧
    method sent = method config ∧ url sent = url config ∧
    params sent = params config ∧ data sent = data config ∧
    signal sent = Some (allocated w).
Proof.
  intros Hk. unfold AxiosRequest.requestChain. simpl.
  destruct (requestInterceptors_spec tokenKey config w)
    as (res' & E & Hm & Hu & Hp & Hd & _).
  unfold mbind, M_bind, bind, then_, AxiosRequest.onConfig. simpl.
  unfold mbind, M_bind, bind. rewrite E. simpl.
  assert (AxiosRequest.requestKey JSON_parse res' = Normal key) as Hk'
    by (by rewrite (requestKey_ext JSON_parse config res')).
  destruct (abortControllerMap w !! key) as [old|] eqn:Hl.
  - rewrite (requestFulfilled_duplicate _ _ _ _ _ Hk' Hl). simpl.
    eexists _, _. split; [reflexivity|]. by simpl.
  - rewrite (requestFulfilled_fresh _ _ _ _ Hk' Hl). simpl.
    eexists _, _. split; [reflexivity|]. by simpl.
Qed.

(** *** Reachable states *)

Lemma registryInv_sameRegistry w w' :
  sameRegistry w w' → registryInv w → registryInv w'.
Proof. intros (Hm & Ha & Hn). unfold registryInv. by rewrite Hm, Ha, Hn. Qed.

Lemma responseInterceptors_sameRegistry tokenKey res w :
  sameRegistry w (after (CreateRequest.responseInterceptors tokenKey res) w).
Proof.
  unfold CreateRequest.responseInterceptors, CreateRequest.handleError. run.
  repeat case_bool_decide; simpl; try done;
    by destruct (includes "#" (href w)).
Qed.

Lemma responseInterceptorsCatch_spec e w :
  ∃ w', CreateRequest.responseInterceptorsCatch e w =
          (Normal (VError (if CreateRequest.isCancel e
                           then CreateRequest.setErrorData (default emptyObject (error_data e)) e
                           else e)), w') ∧
        sameRegistry w w'.
Proof.
  unfold CreateRequest.responseInterceptorsCatch, CreateRequest.handleError. run.
  destruct (CreateRequest.isCancel e); eexists; (split; [reflexivity|done]).
Qed.

Lemma requestChain_inv JSON_parse tokenKey config w :
  registryInv w →
  registryInv (after (AxiosRequest.requestChain JSON_parse
                        (Some (CreateRequest.creteRequest tokenKey)) config) w).
Proof.
  intros Hinv. unfold after, AxiosRequest.requestChain. simpl.
  destruct (requestInterceptors_spec tokenKey config w) as (res' & E & _).
  unfold mbind, M_bind, bind, then_, AxiosRequest.onConfig. simpl.
  unfold mbind, M_bind, bind. rewrite E. simpl.
  pose proof (registryInv_requestFulfilled JSON_parse res' w Hinv) as H.
  unfold after in H.
  by destruct (AxiosRequest.requestFulfilled JSON_parse res' w) as [[?|?] ?].
Qed.

Lemma responseChain_inv tokenKey outcome w :
  registryInv w →
  registryInv (after (AxiosRequest.responseChain
                        (Some (CreateRequest.creteRequest tokenKey)) outcome) w).
Proof.
  intros Hinv. unfold after, AxiosRequest.responseChain. simpl.
  unfold mbind, M_bind, bind, then_.
  assert (∀ v w1, registryInv w1 →
            registryInv (let (c, w2) := AxiosRequest.responseFulfilled v w1 in
                         match c with
                         | Normal v' => (Normal (Fulfilled v'), w2)
                         | Throw e => (Normal (Rejected e), w2)
                         end).2) as Hlast.
  { intros v w1 H1. pose proof (registryInv_responseFulfilled v w1 H1) as H.
    unfold after in H.
    by destruct (AxiosRequest.responseFulfilled v w1) as [[?|?] ?]. }
  destruct outcome as [v|e].
  - unfold AxiosRequest.onResponse.
    destruct v as [c|r|e|d]; simpl; try (by apply Hlast); try done.
    unfold mbind, M_bind, bind.
    pose proof (responseInterceptors_sameRegistry tokenKey r w) as Hs.
    pose proof (responseInterceptors_returns tokenKey r w) as Hr.
    unfold after, completion in Hs, Hr.
    destruct (CreateRequest.responseInterceptors tokenKey r w) as [c w1].
    simpl in Hs, Hr. subst c. simpl. apply registryInv_delete.
    by eapply registryInv_sameRegistry.
  - destruct (responseInterceptorsCatch_spec e w) as (w' & E & Hs).
    rewrite E. simpl. apply Hlast. by eapply registryInv_sameRegistry.
Qed.

(** The invariant holds in every state a client reaches. *)
Lemma reachable_registryInv JSON_parse tokenKey w :
  reachable JSON_parse tokenKey w → registryInv w.
Proof.
  induction 1 as [| w config _ IH | w outcome _ IH | w url _ IH | w _ IH].
  - apply registryInv_init.
  - by apply requestChain_inv.
  - by apply responseChain_inv.
  - by apply registryInv_cancelRequest.
  - by apply registryInv_cancelAllRequest.
Qed.

(* ===================================================================== *)
(** ** The claims                                                         *)
(* ===================================================================== *)

(** *** C1 *)

(** C1 (the code does otherwise). The claim: when a request is dispatched
    while the registry holds an entry for its fingerprint, the old handle is
    aborted and removed and the handle of the new request is stored, so the
    registry holds one live handle for the fingerprint. The old handle is
    aborted and removed, but the [else] of lines 76-79 stores the new
    controller only when there was no entry: after the interceptor the
    registry holds nothing under the fingerprint, and the controller whose
    signal the new request carries, although live, is under no key at all. *)
Theorem duplicate_request_is_not_registered
    (JSON_parse : string -> option JsVal) (res : RequestConfig)
    (key : string) (old : nat) (w : World) :
  registryInv w →
  AxiosRequest.requestKey JSON_parse res = Normal key →
  abortControllerMap w !! key = Some old →
  let fresh := allocated w in
  let w' := after (AxiosRequest.requestFulfilled JSON_parse res) w in
  (completion (AxiosRequest.requestFulfilled JSON_parse res) w
     = Normal (AxiosRequest.setSignal fresh res) ∧
   old ∈ aborted w' ∧
   abortControllerMap w' !! key = None ∧
   (fresh ∉ aborted w') ∧
   (∀ k, abortControllerMap w' !! k ≠ Some fresh)).
Proof.
  intros (H1 & H2 & H3) Hk Hm fresh w'. subst fresh w'.
  unfold after, completion. rewrite (requestFulfilled_duplicate _ _ _ _ _ Hk Hm).
  simpl. split; [done|]. split; [set_solver|]. split; [apply lookup_delete_eq|].
  split.
  - rewrite elem_of_union, elem_of_singleton. intros [Heq|Hin].
    + destruct (H1 _ _ Hm). lia.
    + specialize (H3 _ Hin). lia.
  - intros k Hl. apply lookup_delete_Some in Hl as [_ Hl].
    destruct (H1 _ _ Hl). lia.
Qed.

Lemma duplicate_request_is_not_registered_witness :
  registryInv onePending ∧
  AxiosRequest.requestKey parseJson pageQuery = Normal pageKey ∧
  abortControllerMap onePending !! pageKey = Some 0 ∧
  completion (AxiosRequest.requestFulfilled parseJson pageQuery) onePending
    = Normal (AxiosRequest.setSignal 1 pageQuery) ∧
  0 ∈ aborted (after (AxiosRequest.requestFulfilled parseJson pageQuery) onePending) ∧
  abortControllerMap (after (AxiosRequest.requestFulfilled parseJson pageQuery) onePending)
    !! pageKey = None.
Proof.
  assert (registryInv onePending) as Hinv
    by apply registryInv_requestFulfilled, registryInv_init.
  assert (AxiosRequest.requestKey parseJson pageQuery = Normal pageKey) as Hk
    by (vm_compute; reflexivity).
  assert (abortControllerMap onePending !! pageKey = Some 0) as Hm
    by (vm_compute; reflexivity).
  destruct (duplicate_request_is_not_registered parseJson pageQuery pageKey 0
              onePending Hinv Hk Hm) as (Hc & Ha & Hn & _).
  exact (conj Hinv (conj Hk (conj Hm (conj Hc (conj Ha Hn))))).
Defined.

(** *** C2 *)

(** C2, as stated, fails: a transport failure and a cancellation, each
    carrying the config of its request as the errors of axios do, leave the
    promise of the call fulfilled, with [undefined] and with [{}]. *)
Lemma failure_and_cancellation_are_fulfilled :
  completion (AxiosRequest.request parseJson exampleHooks
                (fun c => Rejected (mkError AxiosError None (Some c))) pageQuery)
             exampleWorld
    = Normal (Fulfilled (VData None)) ∧
  completion (AxiosRequest.request parseJson exampleHooks
                (fun c => Rejected (mkError CanceledError None (Some c))) pageQuery)
             exampleWorld
    = Normal (Fulfilled (VData (Some emptyObject))).
Proof. split; vm_compute; reflexivity. Qed.

(** C2 (amended). For every call of a client made by [creteRequest] whose
    request stage computes its key: when the transport answers the config
    that was sent with a failure or a cancellation that carries its request
    config, as the errors of axios do, the promise of the call is not
    rejected: [responseInterceptorsCatch] returns the error, and the promise
    is fulfilled with the [data] field of the error, which is [{}] for a
    cancellation without data; when the transport answers with a response,
    whatever its business code (401 and every other non-200 code included),
    the promise is fulfilled with the body of the response, the
    [ServerResult] carrying that code. *)
Theorem outcomes_are_fulfilled
    (JSON_parse : string -> option JsVal) (tokenKey : string)
    (adapter : RequestConfig -> Settled) (config : RequestConfig) (key : string)
    (w : World) :
  AxiosRequest.requestKey JSON_parse config = Normal key →
  let call := AxiosRequest.request JSON_parse (Some (CreateRequest.creteRequest tokenKey))
                adapter config in
  ∃ sent,
    method sent = method config ∧ url sent = url config ∧
    params sent = params config ∧ data sent = data config ∧
    signal sent = Some (allocated w) ∧
    match adapter sent with
    | Fulfilled (VResponse r) =>
        completion call w = Normal (Fulfilled (VData (response_data r)))
    | Rejected e =>
        error_config e ≠ None →
        completion call w
          = Normal (Fulfilled (VData (if CreateRequest.isCancel e
                                      then Some (default emptyObject (error_data e))
                                      else error_data e)))
    | Fulfilled _ => True
    end.
Proof.
  intros Hk call. subst call.
  destruct (requestChain_sends JSON_parse tokenKey config key w Hk)
    as (sent & w1 & E & Hm & Hu & Hp & Hd & Hs).
  exists sent. repeat (split; [done|]).
  unfold completion, AxiosRequest.request, mbind, M_bind, bind. rewrite E.
  cbn [AxiosRequest.dispatchRequest].
  destruct (adapter sent) as [[c|r|e|d]|e]; try done.
  - apply (responseChain_response tokenKey r w1).
  - intros He. destruct (error_config e) as [c|] eqn:Hc; [|done].
    apply (responseChain_error tokenKey e c w1 Hc).
Qed.

Lemma outcomes_are_fulfilled_witness :
  AxiosRequest.requestKey parseJson pageQuery = Normal pageKey ∧
  completion (AxiosRequest.request parseJson exampleHooks
                (fun c => Fulfilled (VResponse (reply 401 (Some "expired") c))) pageQuery)
             exampleWorld
    = Normal (Fulfilled (VData (Some (mkResult (Some 401%Z) (Some "expired") JNull)))).
Proof.
  assert (AxiosRequest.requestKey parseJson pageQuery = Normal pageKey) as Hk
    by (vm_compute; reflexivity).
  split; [exact Hk|].
  destruct (outcomes_are_fulfilled parseJson "token"
              (fun c => Fulfilled (VResponse (reply 401 (Some "expired") c)))
              pageQuery pageKey exampleWorld Hk) as (sent & _ & _ & _ & _ & _ & H).
  exact H.
Defined.

(** *** C3 *)

(** C3 (the code does otherwise). The claim: when a response reaches the
    last response interceptor, the entry registered under the request's
    fingerprint is removed. The interceptor deletes the key
    [res.config.url || ""] (lines 105-107), while the entry was stored under
    the fingerprint, which begins with the method and [^]: for every request
    with a method or a url the two differ, the entry stays, and the promise
    is fulfilled with [res.data]. *)
Theorem completed_request_stays_registered
    (JSON_parse : string -> option JsVal) (res : RequestConfig) (key : string)
    (r : AxiosResponse) (w : World) :
  AxiosRequest.requestKey JSON_parse res = Normal key →
  truthyStr (method res) = true ∨ truthyStr (url res) = true →
  abortControllerMap w !! key = None →
  response_config r = AxiosRequest.setSignal (allocated w) res →
  let sent := after (AxiosRequest.requestFulfilled JSON_parse res) w in
  abortControllerMap sent !! key = Some (allocated w) ∧
  completion (AxiosRequest.responseFulfilled (VResponse r)) sent
    = Normal (VData (response_data r)) ∧
  abortControllerMap (after (AxiosRequest.responseFulfilled (VResponse r)) sent) !! key
    = Some (allocated w).
Proof.
  intros Hk Ht Hm Hr sent. subst sent.
  unfold after, completion. rewrite (requestFulfilled_fresh _ _ _ _ Hk Hm).
  unfold AxiosRequest.responseFulfilled. simpl. rewrite Hr. run.
  split; [apply lookup_insert_eq|]. split; [done|].
  rewrite lookup_delete_ne; [apply lookup_insert_eq|].
  intros Heq. by apply (requestKey_not_url JSON_parse res key).
Qed.

Lemma completed_request_stays_registered_witness :
  AxiosRequest.requestKey parseJson pageQuery = Normal pageKey ∧
  abortControllerMap
    (after (AxiosRequest.responseFulfilled
              (VResponse (reply 200 None (AxiosRequest.setSignal 0 pageQuery))))
           onePending) !! pageKey = Some 0.
Proof.
  assert (AxiosRequest.requestKey parseJson pageQuery = Normal pageKey) as Hk
    by (vm_compute; reflexivity).
  split; [exact Hk|].
  refine (proj2 (proj2 (completed_request_stays_registered parseJson pageQuery pageKey
            (reply 200 None (AxiosRequest.setSignal 0 pageQuery)) exampleWorld
            Hk _ _ _))).
  - left. reflexivity.
  - vm_compute. reflexivity.
  - reflexivity.
Defined.

(** *** C4 *)

(** C4 (the code does otherwise). The claim: a string body that begins with
    [{], ends with [}] and is not valid JSON does not make the request stage
    throw, and contributes nothing to the fingerprint. [JSON.parse] is called
    without a [try] (line 63): the interceptor completes with the
    [SyntaxError], nothing is registered, and the request side of the chain
    of a client made by [creteRequest] is rejected with that error. *)
Theorem malformed_body_throws
    (JSON_parse : string -> option JsVal) (tokenKey : string)
    (res : RequestConfig) (text : string) (w : World) :
  data res = DataString text →
  braced text →
  JSON_parse text = None →
  AxiosRequest.requestFulfilled JSON_parse res w
    = (Throw syntaxError, withAllocated (S (allocated w)) w) ∧
  AxiosRequest.requestChain JSON_parse (Some (CreateRequest.creteRequest tokenKey)) res w
    = (Normal (Rejected syntaxError), withAllocated (S (allocated w)) w).
Proof.
  intros Hd Hb Hp.
  assert (∀ res', data res' = data res →
            AxiosRequest.requestKey JSON_parse res' = Throw syntaxError) as Hthrow.
  { intros res' Hd'. rewrite requestKey_closed, Hd', Hd, (jsonText_braced _ Hb).
    by rewrite Hp. }
  split; [by apply requestFulfilled_throw, Hthrow|].
  unfold AxiosRequest.requestChain. simpl.
  destruct (requestInterceptors_spec tokenKey res w) as (res' & E & _ & _ & _ & Hd' & _).
  unfold mbind, M_bind, bind, then_, AxiosRequest.onConfig. simpl.
  unfold mbind, M_bind, bind. rewrite E. simpl.
  by rewrite (requestFulfilled_throw _ _ _ _ (Hthrow res' Hd')).
Qed.

Lemma malformed_body_throws_witness :
  braced "{a}" ∧
  parseJson "{a}" = None ∧
  AxiosRequest.requestFulfilled parseJson (postBody "{a}") exampleWorld
    = (Throw syntaxError, withAllocated 1 exampleWorld).
Proof.
  assert (braced "{a}") as Hb by (by exists "a").
  assert (parseJson "{a}" = None) as Hp by (vm_compute; reflexivity).
  split; [exact Hb|]. split; [exact Hp|].
  exact (proj1 (malformed_body_throws parseJson "token" (postBody "{a}") "{a}"
                  exampleWorld eq_refl Hb Hp)).
Defined.

(** *** C5 *)

(** C5 (the code does otherwise for some pending requests). The claim: after
    [cancelAllRequest()] the registry is empty and every request that was
    pending settles as a cancellation. The registry is empty and every
    controller it held is aborted; but a request sent while an identical one
    was in flight never had its controller stored (see C1), so when the same
    request is sent twice and [cancelAllRequest()] is called, the second
    request, which is pending, is not cancelled. *)
Theorem cancelAllRequest_misses_duplicate
    (JSON_parse : string -> option JsVal) (res : RequestConfig) (key : string)
    (w : World) :
  registryInv w →
  AxiosRequest.requestKey JSON_parse res = Normal key →
  abortControllerMap w !! key = None →
  let first := after (AxiosRequest.requestFulfilled JSON_parse res) w in
  let second := AxiosRequest.requestFulfilled JSON_parse res first in
  let final := after AxiosRequest.cancelAllRequest second.2 in
  ∃ pending,
    second.1 = Normal pending ∧
    signal pending = Some (S (allocated w)) ∧
    abortControllerMap final = ∅ ∧
    (∀ k c, abortControllerMap second.2 !! k = Some c → c ∈ aborted final) ∧
    ¬ cancelled pending final.
Proof.
  intros (H1 & H2 & H3) Hk Hm first second final. subst first second final.
  unfold after. rewrite (requestFulfilled_fresh _ _ _ _ Hk Hm).
  cbn [snd].
  rewrite (requestFulfilled_duplicate _ res key (allocated w)); [|done|apply lookup_insert_eq].
  cbn [fst snd]. rewrite cancelAllRequest_spec. cbn [snd].
  eexists. split; [reflexivity|]. simpl. split; [done|]. split; [done|].
  split.
  - intros k c Hl. rewrite elem_of_union, elem_of_registry_values. left. by exists k.
  - intros (c & [= <-] & Hin). simpl in Hin.
    rewrite !elem_of_union, elem_of_registry_values, elem_of_singleton in Hin.
    destruct Hin as [(k & Hl)|[?|Hin]].
    + apply lookup_delete_Some in Hl as [Hne Hl].
      rewrite lookup_insert_ne in Hl by done. destruct (H1 _ _ Hl). lia.
    + lia.
    + specialize (H3 _ Hin). lia.
Qed.

Lemma cancelAllRequest_misses_duplicate_witness :
  registryInv exampleWorld ∧
  AxiosRequest.requestKey parseJson pageQuery = Normal pageKey ∧
  abortControllerMap exampleWorld !! pageKey = None ∧
  ∃ pending,
    (AxiosRequest.requestFulfilled parseJson pageQuery onePending).1 = Normal pending ∧
    signal pending = Some 1 ∧
    abortControllerMap
      (after AxiosRequest.cancelAllRequest
         (AxiosRequest.requestFulfilled parseJson pageQuery onePending).2) = ∅ ∧
    ¬ cancelled pending
        (after AxiosRequest.cancelAllRequest
           (AxiosRequest.requestFulfilled parseJson pageQuery onePending).2).
Proof.
  assert (registryInv exampleWorld) as Hinv by apply registryInv_init.
  assert (AxiosRequest.requestKey parseJson pageQuery = Normal pageKey) as Hk
    by (vm_compute; reflexivity).
  assert (abortControllerMap exampleWorld !! pageKey = None) as Hm by reflexivity.
  split; [exact Hinv|]. split; [exact Hk|]. split; [exact Hm|].
  destruct (cancelAllRequest_misses_duplicate parseJson pageQuery pageKey exampleWorld
              Hinv Hk Hm) as (pending & Hp & Hs & He & _ & Hc).
  exists pending. exact (conj Hp (conj Hs (conj He Hc))).
Defined.

(** *** C6 *)

(** C6. For every response whose body carries the code 401,
    [responseInterceptors] returns the response as it is, without throwing;
    the credential is removed from the store, so that the getter returns
    nothing afterwards; one error notice is shown, in the language of the
    [lang] setting; and the page is sent to [/login]: through the hash when
    the address contains [#], otherwise by a timer of one second that assigns
    the address. *)
Theorem unauthorized_logs_out (tokenKey : string) (res : AxiosResponse) (w : World) :
  response_data res ≫= code = Some 401%Z →
  let w' := after (CreateRequest.responseInterceptors tokenKey res) w in
  completion (CreateRequest.responseInterceptors tokenKey res) w = Normal res ∧
  localStorage w' = delete tokenKey (localStorage w) ∧
  completion (getLocalInfo tokenKey) w' = Normal None ∧
  notices w' = (notices w ++
    [mkNotice (if bool_decide (localStorage w !! "lang" = Some "en")
               then CreateRequest.enMsg else CreateRequest.zhMsg) (Some "error")])%list ∧
  (includes "#" (href w) = true →
     href w' = beforeHash (href w) +:+ "#/login" ∧ timers w' = timers w) ∧
  (includes "#" (href w) = false →
     href w' = href w ∧
     timers w' = (timers w ++ [(1000, AssignHref "/login")])%list ∧
     href (fireTimers w') = "/login").
Proof.
  intros H401 w'. subst w'.
  unfold CreateRequest.responseInterceptors. run.
  rewrite bool_decide_true by done. simpl.
  destruct (includes "#" (href w)) eqn:Hh; simpl.
  - repeat split; try done. by rewrite lookup_delete_eq.
  - repeat split; try done; [by rewrite lookup_delete_eq|].
    unfold fireTimers. simpl. by rewrite fold_left_app.
Qed.

Lemma unauthorized_logs_out_witness :
  response_data (reply 401 (Some "expired") pageQuery) ≫= code = Some 401%Z ∧
  completion (CreateRequest.responseInterceptors "token" (reply 401 (Some "expired") pageQuery))
             exampleWorld = Normal (reply 401 (Some "expired") pageQuery) ∧
  completion (getLocalInfo "token")
    (after (CreateRequest.responseInterceptors "token" (reply 401 (Some "expired") pageQuery))
           exampleWorld) = Normal None.
Proof.
  split; [reflexivity|].
  destruct (unauthorized_logs_out "token" (reply 401 (Some "expired") pageQuery)
              exampleWorld eq_refl) as (Hc & _ & Hg & _).
  exact (conj Hc Hg).
Defined.

(** *** C7 *)

(** C7. For every response whose body code is neither 200 nor 401 (a missing
    code included), [responseInterceptors] returns the response, leaves the
    store, the address and the timers as they were, and calls the notifier
    exactly once, with the message of the server when it is a non-empty
    string and with the fallback text otherwise. *)
Theorem business_error_notifies_once (tokenKey : string) (res : AxiosResponse) (w : World) :
  response_data res ≫= code ≠ Some 200%Z →
  response_data res ≫= code ≠ Some 401%Z →
  let w' := after (CreateRequest.responseInterceptors tokenKey res) w in
  completion (CreateRequest.responseInterceptors tokenKey res) w = Normal res ∧
  localStorage w' = localStorage w ∧
  href w' = href w ∧
  timers w' = timers w ∧
  notices w' = (notices w ++
    [mkNotice (match response_data res ≫= message with
               | Some (String a m) => String a m
               | _ => "服务器错误"
               end) (Some "error")])%list.
Proof.
  intros H200 H401 w'. subst w'.
  unfold CreateRequest.responseInterceptors. run.
  rewrite (bool_decide_false _ H401), (bool_decide_false _ H200). simpl.
  repeat split; try done.
  by destruct (option_bind _ _ message (response_data res)) as [[|]|].
Qed.

Lemma business_error_notifies_once_witness :
  response_data (reply 404 (Some "no such user") pageQuery) ≫= code ≠ Some 200%Z ∧
  response_data (reply 404 (Some "no such user") pageQuery) ≫= code ≠ Some 401%Z ∧
  localStorage (after (CreateRequest.responseInterceptors "token"
                         (reply 404 (Some "no such user") pageQuery)) exampleWorld)
    = localStorage exampleWorld ∧
  notices (after (CreateRequest.responseInterceptors "token"
                    (reply 404 (Some "no such user") pageQuery)) exampleWorld)
    = [mkNotice "no such user" (Some "error")].
Proof.
  assert (response_data (reply 404 (Some "no such user") pageQuery) ≫= code ≠ Some 200%Z)
    as H200 by (simpl; congruence).
  assert (response_data (reply 404 (Some "no such user") pageQuery) ≫= code ≠ Some 401%Z)
    as H401 by (simpl; congruence).
  destruct (business_error_notifies_once "token" (reply 404 (Some "no such user") pageQuery)
              exampleWorld H200 H401) as (_ & Hs & _ & _ & Hn).
  exact (conj H200 (conj H401 (conj Hs Hn))).
Defined.

(** *** C8 *)

(** C8. The string the request interceptor builds is the fingerprint of the
    specification: the method, [^] and the url when there is one,
    [&key=value] for each parameter in enumeration order and, for a string
    body between braces that parses, [#key=value] for each top-level field
    of the parsed object; a body that is not such a string adds nothing. It
    begins with the method of the config, which for the four verbs of the
    client is the lower-case name; and it depends on the method, the url,
    the parameters and the body only, so that two configs equal on these
    give the same result. *)
Theorem requestKey_is_fingerprint (JSON_parse : string -> option JsVal) (res : RequestConfig) :
  ((∀ text, data res = DataString text → ¬ braced text) →
     AxiosRequest.requestKey JSON_parse res
       = Normal (fingerprint (orEmpty (method res)) (url res) (paramList res) [])) ∧
  (∀ text obj, data res = DataString text → braced text → JSON_parse text = Some obj →
     AxiosRequest.requestKey JSON_parse res
       = Normal (fingerprint (orEmpty (method res)) (url res) (paramList res) (forIn obj))) ∧
  (∀ key, AxiosRequest.requestKey JSON_parse res = Normal key →
     String.prefix (orEmpty (method res)) key = true) ∧
  (∀ verb u d options, verb ∈ ["get"; "post"; "put"; "delete"] →
     method (AxiosRequest.withVerb verb u d options) = Some verb ∧
     toLowerCase verb = verb) ∧
  (∀ res', method res' = method res → url res' = url res →
           params res' = params res → data res' = data res →
     AxiosRequest.requestKey JSON_parse res' = AxiosRequest.requestKey JSON_parse res).
Proof.
  split; [|split; [|split; [|split]]].
  - intros Hnot. rewrite requestKey_closed.
    destruct (AxiosRequest.jsonText (data res)) as [text|] eqn:E; [|done].
    apply jsonText_Some in E as [Hd Hb]. by destruct (Hnot text Hd).
  - intros text obj Hd Hb Hp.
    by rewrite requestKey_closed, Hd, (jsonText_braced _ Hb), Hp.
  - intros key. rewrite requestKey_closed. unfold fingerprint.
    destruct (AxiosRequest.jsonText (data res)) as [text|];
      [destruct (JSON_parse text); [|done]|]; intros [= <-]; apply prefix_append.
  - intros verb u d options Hin. split; [done|].
    repeat (apply elem_of_cons in Hin as [->|Hin]; [done|]).
    by apply elem_of_nil in Hin.
  - intros res' Hm Hu Hp Hd. rewrite !requestKey_closed. unfold paramList.
    by rewrite Hm, Hu, Hp, Hd.
Qed.

Lemma requestKey_is_fingerprint_witness :
  data (postBody jsonAB) = DataString jsonAB ∧
  braced jsonAB ∧
  parseJson jsonAB = Some (JObj [("a", JNum 1); ("b", JNum 2)]) ∧
  AxiosRequest.requestKey parseJson (postBody jsonAB) = Normal "post^/x#a=1#b=2".
Proof.
  assert (braced jsonAB) as Hb
    by (by exists (quoted "a" +:+ ":1," +:+ quoted "b" +:+ ":2")).
  assert (parseJson jsonAB = Some (JObj [("a", JNum 1); ("b", JNum 2)])) as Hp
    by (vm_compute; reflexivity).
  split; [reflexivity|]. split; [exact Hb|]. split; [exact Hp|].
  exact (proj1 (proj2 (requestKey_is_fingerprint parseJson (postBody jsonAB)))
               _ _ eq_refl Hb Hp).
Defined.

(** *** C9 *)

(** C9. For every outgoing config that has a headers object,
    [requestInterceptors] returns the config with [Authorization] set to the
    stored credential when the store holds a non-empty one, the other
    headers and fields being as they were; when the store holds none or an
    empty one, it returns the config unchanged. It changes nothing else. *)
Theorem authorization_header_is_the_token
    (tokenKey : string) (res : RequestConfig) (h : gmap string string) (w : World) :
  headers res = Some h →
  after (CreateRequest.requestInterceptors tokenKey res) w = w ∧
  match completion (getLocalInfo tokenKey) w with
  | Normal (Some (String a t)) =>
      ∃ h', completion (CreateRequest.requestInterceptors tokenKey res) w
              = Normal (CreateRequest.setHeaders h' res) ∧
            h' !! "Authorization" = Some (String a t) ∧
            (∀ name, name ≠ "Authorization" → h' !! name = h !! name)
  | _ => completion (CreateRequest.requestInterceptors tokenKey res) w = Normal res
  end.
Proof.
  intros Hh. unfold CreateRequest.requestInterceptors. run. rewrite Hh.
  destruct (localStorage w !! tokenKey) as [[|a t]|]; simpl; try done.
  split; [done|]. eexists. split; [reflexivity|]. split.
  - apply lookup_insert_eq.
  - intros name Hne. by rewrite lookup_insert_ne.
Qed.

Lemma authorization_header_is_the_token_witness :
  headers pageQuery = Some ∅ ∧
  (∃ h', completion (CreateRequest.requestInterceptors "token" pageQuery) exampleWorld
           = Normal (CreateRequest.setHeaders h' pageQuery) ∧
         h' !! "Authorization" = Some "tok-123") ∧
  completion (CreateRequest.requestInterceptors "token" pageQuery)
             (withStorage (delete "token") exampleWorld)
    = Normal pageQuery.
Proof.
  split; [reflexivity|]. split.
  - assert (∃ h', completion (CreateRequest.requestInterceptors "token" pageQuery)
                    exampleWorld = Normal (CreateRequest.setHeaders h' pageQuery) ∧
                  h' !! "Authorization" = Some "tok-123" ∧
                  (∀ name, name ≠ "Authorization" → h' !! name = (∅ : gmap string string) !! name))
      as (h' & Hc & Ha & _)
      by exact (proj2 (authorization_header_is_the_token "token" pageQuery ∅ exampleWorld
                         eq_refl)).
    exists h'. exact (conj Hc Ha).
  - exact (proj2 (authorization_header_is_the_token "token" pageQuery ∅
                    (withStorage (delete "token") exampleWorld) eq_refl)).
Defined.

(** *** C10 *)

(** C10. For every state of the client and every url or list of urls,
    [cancelRequest] completes normally; each listed key that has an entry
    loses it and its controller is aborted; a listed key without an entry
    changes nothing; every entry under a key that is not listed stays, with
    the same controller, not aborted; and the controllers aborted are those
    aborted before and those of the listed entries, no other. *)
Theorem cancelRequest_listed_only (url : AxiosRequest.UrlArg) (w : World) :
  registryInv w →
  ∃ w', AxiosRequest.cancelRequest url w = (Normal tt, w') ∧
    (∀ k, k ∈ urlList url → abortControllerMap w' !! k = None) ∧
    (∀ k c, k ∈ urlList url → abortControllerMap w !! k = Some c → c ∈ aborted w') ∧
    (∀ k c, k ∉ urlList url → abortControllerMap w !! k = Some c →
            abortControllerMap w' !! k = Some c ∧ c ∉ aborted w') ∧
    (∀ k, k ∉ urlList url → abortControllerMap w !! k = None →
          abortControllerMap w' !! k = None) ∧
    (∀ c, c ∈ aborted w' ↔
          c ∈ aborted w ∨ ∃ k, k ∈ urlList url ∧ abortControllerMap w !! k = Some c) ∧
    sameBrowser w w'.
Proof.
  intros (H1 & H2 & H3).
  destruct (cancelRequest_spec url w) as (w' & E & Hm & Ha & Hb).
  exists w'. split; [done|]. repeat split; try apply Hb; try apply Ha.
  - intros k Hin. rewrite Hm. by rewrite decide_True.
  - intros k c Hin Hl. apply Ha. right. by exists k.
  - rewrite Hm. by rewrite decide_False.
  - rewrite Ha. intros [?|(k' & Hk' & Hl')].
    + by eapply H1.
    + assert (k' = k) as -> by eauto. done.
  - intros k Hin Hl. rewrite Hm. by rewrite decide_False.
Qed.

Lemma registryInv_twoPending : registryInv twoPending.
Proof.
  unfold registryInv, twoPending. simpl. split; [|split].
  - intros k c Hl. repeat (apply lookup_insert_Some in Hl as [[_ <-]|[_ Hl]];
      [split; [lia|set_solver]|]). by rewrite lookup_empty in Hl.
  - intros k1 k2 c Hl1 Hl2.
    rewrite !lookup_insert_Some, lookup_empty in Hl1, Hl2.
    destruct Hl1 as [[<- <-]|[? [[<- <-]|[? ?]]]];
      destruct Hl2 as [[<- ?]|[? [[<- ?]|[? ?]]]]; done.
  - set_solver.
Qed.

Lemma cancelRequest_listed_only_witness :
  registryInv twoPending ∧
  ∃ w', AxiosRequest.cancelRequest (AxiosRequest.Urls ["get^/a"; "get^/none"]) twoPending
          = (Normal tt, w') ∧
        abortControllerMap w' !! "get^/a" = None ∧
        0 ∈ aborted w' ∧
        abortControllerMap w' !! "get^/b" = Some 1 ∧
        1 ∉ aborted w'.
Proof.
  split; [exact registryInv_twoPending|].
  destruct (cancelRequest_listed_only (AxiosRequest.Urls ["get^/a"; "get^/none"]) twoPending
              registryInv_twoPending) as (w' & E & Hgone & Habort & Hkeep & _).
  exists w'. split; [exact E|].
  split; [apply Hgone; simpl; set_solver|].
  split; [apply (Habort "get^/a"); [simpl; set_solver|reflexivity]|].
  apply (Hkeep "get^/b"); [|reflexivity].
  simpl. rewrite !elem_of_cons, elem_of_nil. intros [?|[?|?]]; done.
Defined.

(* ===================================================================== *)
(** ** Further properties of the request layer                            *)
(* ===================================================================== *)

(** *** Lemmas on the chain *)

Lemma world_eq w w' :
  abortControllerMap w' = abortControllerMap w → aborted w' = aborted w →
  sameBrowser w w' → w' = w.
Proof.
  destruct w, w'. unfold sameBrowser. simpl.
  intros -> -> (-> & -> & -> & -> & -> & ->). reflexivity.
Qed.

Lemma cancelOne_absent k w :
  abortControllerMap w !! k = None → cancelOne k w = (Normal tt, w).
Proof.
  intros Hk. unfold cancelOne. run. rewrite Hk. unfold modify. simpl. f_equal.
  destruct w. unfold withMap. simpl in *. f_equal. by apply delete_id.
Qed.

Lemma cancelLoop_absent l : ∀ w,
  (∀ k, k ∈ l → abortControllerMap w !! k = None) →
  forOf l cancelOne w = (Normal tt, w).
Proof.
  induction l as [|k r IH]; intros w Hl; [done|].
  simpl. unfold mbind, M_bind, bind.
  rewrite cancelOne_absent by (apply Hl; set_solver).
  apply IH. intros k' Hk'. apply Hl. set_solver.
Qed.

Lemma forOf_app {A} (l1 l2 : list A) (body : A -> M unit) w :
  forOf (l1 ++ l2) body w = (forOf l1 body ;; forOf l2 body) w.
Proof.
  revert w. induction l1 as [|x r IH]; intros w; simpl.
  - unfold mbind, M_bind, bind, ret. reflexivity.
  - unfold mbind, M_bind, bind in *. destruct (body x w) as [[[]|e] w1]; [|done].
    apply IH.
Qed.

Lemma world_ext w w1 w2 :
  (∀ k, abortControllerMap w1 !! k = abortControllerMap w2 !! k) →
  (∀ c, c ∈ aborted w1 ↔ c ∈ aborted w2) →
  sameBrowser w w1 → sameBrowser w w2 → w1 = w2.
Proof.
  intros Hm Ha H1 H2. apply world_eq.
  - apply map_eq. intros k. by rewrite Hm.
  - apply set_eq. intros c. by rewrite Ha.
  - unfold sameBrowser in *. destruct H1 as (?&?&?&?&?&?), H2 as (?&?&?&?&?&?).
    repeat split; congruence.
Qed.

(** *** X1 *)

(** X1. [cancelAllRequest()] never fails; afterwards the registry is empty;
    a controller is aborted exactly when it was aborted before or was held
    by the registry; nothing outside the client's registry changes; and a
    second call changes nothing. *)
Theorem cancelAllRequest_clears (w : World) :
  let w' := after AxiosRequest.cancelAllRequest w in
  completion AxiosRequest.cancelAllRequest w = Normal tt ∧
  abortControllerMap w' = ∅ ∧
  (∀ c, c ∈ aborted w' ↔ c ∈ aborted w ∨ ∃ k, abortControllerMap w !! k = Some c) ∧
  sameBrowser w w' ∧
  after AxiosRequest.cancelAllRequest w' = w'.
Proof.
  intros w'. subst w'. unfold after, completion.
  rewrite !cancelAllRequest_spec. simpl.
  split; [done|]. split; [done|]. split; [|split; [by repeat split|]].
  - intros c. rewrite elem_of_union, elem_of_registry_values. tauto.
  - unfold withMap, withAborted. simpl. f_equal.
    rewrite map_to_list_empty. simpl. set_solver.
Qed.

(** *** X2 *)

(** X2. [cancelRequest] depends on the set of the urls it is given, not on
    their order or repetition, and cancelling one list and then another is
    cancelling their concatenation; so cancelling the same urls again
    changes nothing. *)
Theorem cancelRequest_composes (l1 l2 : list string) (w : World) :
  (( ∀ k, k ∈ l1 ↔ k ∈ l2) →
     after (AxiosRequest.cancelRequest (AxiosRequest.Urls l1)) w
     = after (AxiosRequest.cancelRequest (AxiosRequest.Urls l2)) w) ∧
  after (AxiosRequest.cancelRequest (AxiosRequest.Urls l2))
        (after (AxiosRequest.cancelRequest (AxiosRequest.Urls l1)) w)
  = after (AxiosRequest.cancelRequest (AxiosRequest.Urls (l1 ++ l2))) w ∧
  after (AxiosRequest.cancelRequest (AxiosRequest.Urls l1))
        (after (AxiosRequest.cancelRequest (AxiosRequest.Urls l1)) w)
  = after (AxiosRequest.cancelRequest (AxiosRequest.Urls l1)) w.
Proof.
  destruct (cancelRequest_spec (AxiosRequest.Urls l1) w) as (w1 & E1 & Hm1 & Ha1 & Hb1).
  destruct (cancelRequest_spec (AxiosRequest.Urls l2) w) as (w2 & E2 & Hm2 & Ha2 & Hb2).
  simpl in Hm1, Ha1, Hm2, Ha2.
  split; [|split].
  - intros Hset. unfold after. rewrite E1, E2. simpl.
    apply (world_ext w); try done.
    + intros k. rewrite Hm1, Hm2. repeat case_decide; try done; naive_solver.
    + intros c. rewrite Ha1, Ha2. naive_solver.
  - unfold after, AxiosRequest.cancelRequest. rewrite forOf_app.
    change (forOf l1 _ w) with (AxiosRequest.cancelRequest (AxiosRequest.Urls l1) w)
      in *.
    unfold mbind, M_bind, bind.
    change (forOf l1 _ w) with (AxiosRequest.cancelRequest (AxiosRequest.Urls l1) w).
    by rewrite E1.
  - unfold after. rewrite E1. simpl.
    change (AxiosRequest.cancelRequest (AxiosRequest.Urls l1) w1)
      with (forOf l1 cancelOne w1).
    rewrite cancelLoop_absent; [done|].
    intros k Hk. rewrite Hm1. by rewrite decide_True.
Qed.

Lemma cancelRequest_composes_witness :
  (∀ k, k ∈ ["get^/a"; "get^/b"; "get^/a"] ↔ k ∈ ["get^/b"; "get^/a"]) ∧
  after (AxiosRequest.cancelRequest (AxiosRequest.Urls ["get^/a"; "get^/b"; "get^/a"]))
        twoPending
  = after (AxiosRequest.cancelRequest (AxiosRequest.Urls ["get^/b"; "get^/a"])) twoPending.
Proof.
  assert (∀ k : string, k ∈ ["get^/a"; "get^/b"; "get^/a"] ↔ k ∈ ["get^/b"; "get^/a"])
    as Hset by (intros k; rewrite !elem_of_cons, !elem_of_nil; tauto).
  exact (conj Hset
          (proj1 (cancelRequest_composes ["get^/a"; "get^/b"; "get^/a"]
                    ["get^/b"; "get^/a"] twoPending) Hset)).
Defined.

(** *** X3 *)

(** X3. [cancelAllRequest()] leaves the client in the state in which
    [cancelRequest] on the list of all registered keys leaves it. *)
Theorem cancelAllRequest_is_cancelRequest_of_all_keys (w : World) :
  after AxiosRequest.cancelAllRequest w
  = after (AxiosRequest.cancelRequest
             (AxiosRequest.Urls (map_to_list (abortControllerMap w)).*1)) w.
Proof.
  destruct (cancelRequest_spec
              (AxiosRequest.Urls (map_to_list (abortControllerMap w)).*1) w)
    as (w1 & E1 & Hm1 & Ha1 & Hb1).
  simpl in Hm1, Ha1. unfold after at 2. rewrite E1. simpl.
  unfold after. rewrite cancelAllRequest_spec. simpl.
  assert (∀ k c, abortControllerMap w !! k = Some c →
                 k ∈ (map_to_list (abortControllerMap w)).*1) as Hin.
  { intros k c Hl. apply list_elem_of_fmap. exists (k, c).
    split; [done|]. by apply elem_of_map_to_list. }
  apply (world_ext w); [| |by repeat split|done].
  - intros k. simpl. rewrite lookup_empty, Hm1. case_decide as Hk; [done|].
    destruct (abortControllerMap w !! k) as [c|] eqn:Hl; [|done].
    destruct Hk. by eapply Hin.
  - intros c. simpl. rewrite elem_of_union, elem_of_registry_values, Ha1.
    split.
    + intros [(k & Hl)|?]; [right; exists k; split; [by eapply Hin|done]|by left].
    + intros [?|(k & _ & Hl)]; [by right|left; by exists k].
Qed.

(** *** X4 *)

(** X4. Registering and cancelling are inverse on the registry: a request
    sent while no entry exists for its fingerprint is stored under it with a
    fresh controller, which is also its signal; [cancelRequest] on that
    fingerprint then cancels this request, aborts no other controller, and
    leaves the registry as it was before the request. *)
Theorem register_then_cancel
    (JSON_parse : string -> option JsVal) (res : RequestConfig) (key : string)
    (w : World) :
  AxiosRequest.requestKey JSON_parse res = Normal key →
  abortControllerMap w !! key = None →
  let sent := AxiosRequest.requestFulfilled JSON_parse res w in
  let w' := after (AxiosRequest.cancelRequest (AxiosRequest.Url key)) sent.2 in
  ∃ config,
    sent.1 = Normal config ∧
    signal config = Some (allocated w) ∧
    abortControllerMap sent.2 !! key = Some (allocated w) ∧
    cancelled config w' ∧
    abortControllerMap w' = abortControllerMap w ∧
    (∀ c, c ∈ aborted w' ↔ c ∈ aborted w ∨ c = allocated w).
Proof.
  intros Hk Hm sent w'. subst sent w'.
  rewrite (requestFulfilled_fresh _ _ _ _ Hk Hm). cbn [fst snd].
  unfold after, AxiosRequest.cancelRequest. simpl. run.
  rewrite lookup_insert_eq. simpl.
  eexists. split; [reflexivity|]. simpl. split; [done|]. split; [done|].
  split; [|split].
  - exists (allocated w). split; [done|]. set_solver.
  - by apply delete_insert_id.
  - intros c. rewrite elem_of_union, elem_of_singleton. tauto.
Qed.

Lemma register_then_cancel_witness :
  AxiosRequest.requestKey parseJson pageQuery = Normal pageKey ∧
  abortControllerMap exampleWorld !! pageKey = None ∧
  abortControllerMap
    (after (AxiosRequest.cancelRequest (AxiosRequest.Url pageKey)) onePending)
  = abortControllerMap exampleWorld.
Proof.
  assert (AxiosRequest.requestKey parseJson pageQuery = Normal pageKey) as Hk
    by (vm_compute; reflexivity).
  assert (abortControllerMap exampleWorld !! pageKey = None) as Hm by reflexivity.
  destruct (register_then_cancel parseJson pageQuery pageKey exampleWorld Hk Hm)
    as (config & _ & _ & _ & _ & Hr & _).
  exact (conj Hk (conj Hm Hr)).
Defined.

(** *** X5 *)

(** X5. The public [cancelRequest(url)] cannot reach a request by the url it
    was sent to: the registry is keyed by the fingerprint, which differs
    from the url of every request that has a method or a url. After a
    request is sent, [cancelRequest] on its url leaves its entry in place
    and its controller not aborted. *)
Theorem cancelRequest_by_url_misses
    (JSON_parse : string -> option JsVal) (res : RequestConfig) (key : string)
    (w : World) :
  registryInv w →
  AxiosRequest.requestKey JSON_parse res = Normal key →
  truthyStr (method res) = true ∨ truthyStr (url res) = true →
  abortControllerMap w !! key = None →
  let sent := after (AxiosRequest.requestFulfilled JSON_parse res) w in
  let w' := after (UtilsRequest.cancelRequest (AxiosRequest.Url (orElse (url res) ""))) sent in
  abortControllerMap w' !! key = Some (allocated w) ∧
  allocated w ∉ aborted w'.
Proof.
  intros (H1 & H2 & H3) Hk Ht Hm sent w'. subst sent w'.
  pose proof (requestKey_not_url JSON_parse res key Hk Ht) as Hne.
  unfold after. rewrite (requestFulfilled_fresh _ _ _ _ Hk Hm). cbn [snd].
  unfold UtilsRequest.cancelRequest.
  match goal with
  | |- context [AxiosRequest.cancelRequest ?u ?w0] =>
      destruct (cancelRequest_spec u w0) as (w' & E & Hm' & Ha' & _);
      rewrite E; simpl in Hm', Ha' |- *
  end.
  split.
  - rewrite Hm'. rewrite decide_False by (rewrite list_elem_of_singleton; done).
    apply lookup_insert_eq.
  - rewrite Ha'. intros [Hin|(k & Hk' & Hl)].
    + specialize (H3 _ Hin). lia.
    + apply list_elem_of_singleton in Hk' as ->.
      rewrite lookup_insert_ne in Hl by done. destruct (H1 _ _ Hl). lia.
Qed.

Lemma cancelRequest_by_url_misses_witness :
  registryInv exampleWorld ∧
  AxiosRequest.requestKey parseJson pageQuery = Normal pageKey ∧
  abortControllerMap
    (after (UtilsRequest.cancelRequest (AxiosRequest.Url "/authority/user/page")) onePending)
    !! pageKey = Some 0.
Proof.
  assert (registryInv exampleWorld) as Hinv by apply registryInv_init.
  assert (AxiosRequest.requestKey parseJson pageQuery = Normal pageKey) as Hk
    by (vm_compute; reflexivity).
  split; [exact Hinv|]. split; [exact Hk|].
  exact (proj1 (cancelRequest_by_url_misses parseJson pageQuery pageKey exampleWorld
                  Hinv Hk (or_introl eq_refl) eq_refl)).
Defined.

(** *** X6 *)

(** X6. Of [n] identical requests sent one after the other with none
    completing, the odd-numbered ones are registered and each even-numbered
    one aborts and removes its predecessor without being registered: after
    [n] of them the fingerprint is registered exactly when [n] is odd, to
    the controller of the last request; the controllers aborted are those
    of the odd-numbered requests that were followed by another; the entries
    under other keys are untouched. *)
Theorem identical_requests_alternate
    (JSON_parse : string -> option JsVal) (res : RequestConfig) (key : string)
    (w : World) (n : nat) :
  AxiosRequest.requestKey JSON_parse res = Normal key →
  abortControllerMap w !! key = None →
  let wn := Nat.iter n (after (AxiosRequest.requestFulfilled JSON_parse res)) w in
  allocated wn = allocated w + n ∧
  abortControllerMap wn !! key
    = (if Nat.odd n then Some (allocated w + n - 1) else None) ∧
  (∀ k, k ≠ key → abortControllerMap wn !! k = abortControllerMap w !! k) ∧
  (∀ c, c ∈ aborted wn ↔
        c ∈ aborted w ∨ ∃ i, c = allocated w + 2 * i ∧ (2 * i + 2 <= n)%nat).
Proof.
  intros Hk Hm wn. subst wn. induction n as [|n (IHa & IHm & IHo & IHb)].
  - simpl. split; [lia|]. split; [done|]. split; [done|].
    intros c. split; [auto|]. intros [?|(i & _ & ?)]; [done|lia].
  - set (wn := Nat.iter n (after (AxiosRequest.requestFulfilled JSON_parse res)) w) in *.
    change (Nat.iter (S n) (after (AxiosRequest.requestFulfilled JSON_parse res)) w)
      with (after (AxiosRequest.requestFulfilled JSON_parse res) wn).
    rewrite Nat.odd_succ, <- Nat.negb_odd. unfold after.
    destruct (Nat.odd n) eqn:Hodd; simpl negb; cbv iota.
    + apply Nat.odd_spec in Hodd as [m ->].
      rewrite (requestFulfilled_duplicate _ _ _ _ _ Hk IHm). simpl.
      split; [lia|]. split; [apply lookup_delete_eq|]. split.
      * intros k Hne. rewrite lookup_delete_ne by done. by apply IHo.
      * intros c. rewrite elem_of_union, elem_of_singleton, IHb. split.
        -- intros [->|[?|(i & -> & ?)]]; [right; exists m; lia|by left|].
           right. exists i. lia.
        -- intros [?|(i & -> & ?)]; [by right; left|].
           destruct (decide (i = m)) as [->|?]; [left; lia|].
           right. right. exists i. lia.
    + assert (Nat.even n = true) as Hev by (by rewrite <- Nat.negb_odd, Hodd).
      apply Nat.even_spec in Hev as [m ->].
      rewrite (requestFulfilled_fresh _ _ _ _ Hk IHm). simpl.
      split; [lia|]. split; [rewrite lookup_insert_eq; f_equal; lia|]. split.
      * intros k Hne. rewrite lookup_insert_ne by done. by apply IHo.
      * intros c. rewrite IHb. split.
        -- intros [?|(i & -> & ?)]; [by left|]. right. exists i. lia.
        -- intros [?|(i & -> & ?)]; [by left|]. right. exists i. lia.
Qed.

Lemma identical_requests_alternate_witness :
  AxiosRequest.requestKey parseJson pageQuery = Normal pageKey ∧
  abortControllerMap exampleWorld !! pageKey = None ∧
  abortControllerMap
    (Nat.iter 3 (after (AxiosRequest.requestFulfilled parseJson pageQuery)) exampleWorld)
    !! pageKey = Some 2 ∧
  abortControllerMap
    (Nat.iter 4 (after (AxiosRequest.requestFulfilled parseJson pageQuery)) exampleWorld)
    !! pageKey = None.
Proof.
  assert (AxiosRequest.requestKey parseJson pageQuery = Normal pageKey) as Hk
    by (vm_compute; reflexivity).
  assert (abortControllerMap exampleWorld !! pageKey = None) as Hm by reflexivity.
  split; [exact Hk|]. split; [exact Hm|]. split.
  - exact (proj1 (proj2 (identical_requests_alternate parseJson pageQuery pageKey
                           exampleWorld 3 Hk Hm))).
  - exact (proj1 (proj2 (identical_requests_alternate parseJson pageQuery pageKey
                           exampleWorld 4 Hk Hm))).
Defined.

(** *** More lemmas on the chain *)

Lemma requestKey_throws JSON_parse res e :
  AxiosRequest.requestKey JSON_parse res = Throw e → e = syntaxError.
Proof.
  rewrite requestKey_closed.
  destruct (AxiosRequest.jsonText (data res)) as [text|]; [|done].
  destruct (JSON_parse text); [done|]. by intros [= <-].
Qed.

Lemma requestChain_throw JSON_parse tokenKey config e w :
  AxiosRequest.requestKey JSON_parse config = Throw e →
  AxiosRequest.requestChain JSON_parse (hooksOf tokenKey) config w
  = (Normal (Rejected e), withAllocated (S (allocated w)) w).
Proof.
  intros Hk. unfold AxiosRequest.requestChain, hooksOf. simpl.
  destruct (requestInterceptors_spec tokenKey config w)
    as (res' & E & Hm & Hu & Hp & Hd & _).
  unfold mbind, M_bind, bind, then_, AxiosRequest.onConfig. simpl.
  unfold mbind, M_bind, bind. rewrite E. simpl.
  assert (AxiosRequest.requestKey JSON_parse res' = Throw e) as Hk'
    by (by rewrite (requestKey_ext JSON_parse config res')).
  by rewrite (requestFulfilled_throw _ _ _ _ Hk').
Qed.

Lemma requestFulfilled_registered JSON_parse res key w :
  AxiosRequest.requestKey JSON_parse res = Normal key →
  AxiosRequest.requestFulfilled JSON_parse res w
  = (Normal (AxiosRequest.setSignal (allocated w) res), registered key w).
Proof.
  intros Hk. unfold registered.
  destruct (abortControllerMap w !! key) as [old|] eqn:Hl.
  - by apply requestFulfilled_duplicate.
  - by apply requestFulfilled_fresh.
Qed.

Lemma requestChain_state JSON_parse tokenKey config key w :
  AxiosRequest.requestKey JSON_parse config = Normal key →
  ∃ stamped,
    CreateRequest.requestInterceptors tokenKey config w = (Normal stamped, w) ∧
    AxiosRequest.requestChain JSON_parse (hooksOf tokenKey) config w
      = (Normal (Fulfilled (VConfig (AxiosRequest.setSignal (allocated w) stamped))),
         registered key w) ∧
    method stamped = method config ∧ url stamped = url config ∧
    params stamped = params config ∧ data stamped = data config.
Proof.
  intros Hk. unfold AxiosRequest.requestChain, hooksOf. simpl.
  destruct (requestInterceptors_spec tokenKey config w)
    as (res' & E & Hm & Hu & Hp & Hd & _).
  exists res'. split; [done|]. split; [|done].
  unfold mbind, M_bind, bind, then_, AxiosRequest.onConfig. simpl.
  unfold mbind, M_bind, bind. rewrite E. simpl.
  assert (AxiosRequest.requestKey JSON_parse res' = Normal key) as Hk'
    by (by rewrite (requestKey_ext JSON_parse config res')).
  by rewrite (requestFulfilled_registered _ _ _ _ Hk').
Qed.

Lemma responseChain_rejected tokenKey e w :
  AxiosRequest.responseChain (hooksOf tokenKey) (Rejected e) w =
  let w1 := if CreateRequest.isCancel e then w
            else withNotices (notices w ++ [mkNotice "服务器错误！" (Some "error")])
                   (withConsole (console w ++ [mkEntry "error" "错误信息:" (Some "服务器错误！")]) w) in
  match error_config e with
  | Some c =>
      (Normal (Fulfilled (VData (if CreateRequest.isCancel e
                                 then Some (default emptyObject (error_data e))
                                 else error_data e))),
       withMap (delete (orElse (url c) "")) w1)
  | None => (Normal (Rejected typeError), w1)
  end.
Proof.
  unfold AxiosRequest.responseChain, hooksOf. simpl.
  unfold mbind, M_bind, bind, then_, CreateRequest.responseInterceptorsCatch.
  destruct (CreateRequest.isCancel e); simpl;
    unfold AxiosRequest.responseFulfilled; simpl;
    by destruct (error_config e).
Qed.

Lemma responseChain_responded tokenKey r w :
  AxiosRequest.responseChain (hooksOf tokenKey) (Fulfilled (VResponse r)) w =
  (Normal (Fulfilled (VData (response_data r))),
   withMap (delete (orElse (url (response_config r)) ""))
     (after (CreateRequest.responseInterceptors tokenKey r) w)).
Proof.
  unfold AxiosRequest.responseChain, hooksOf. simpl.
  unfold mbind, M_bind, bind, then_, AxiosRequest.onResponse. simpl.
  unfold mbind, M_bind, bind.
  pose proof (responseInterceptors_returns tokenKey r w) as Hr.
  unfold completion, after in *.
  destruct (CreateRequest.responseInterceptors tokenKey r w) as [c w1].
  simpl in Hr. subst c. reflexivity.
Qed.

(** *** X7 *)

(** X7. A request that has completed stays in the way of the next identical
    one: when a request is sent, its response passes the last response
    interceptor, and the same request is sent again, the second one finds
    the entry of the first, aborts the controller of the request that has
    already completed, removes the entry, and is itself not registered,
    with a controller that is not aborted. *)
Theorem request_after_completion_is_unregistered
    (JSON_parse : string -> option JsVal) (res : RequestConfig) (key : string)
    (r : AxiosResponse) (w : World) :
  registryInv w →
  AxiosRequest.requestKey JSON_parse res = Normal key →
  truthyStr (method res) = true ∨ truthyStr (url res) = true →
  abortControllerMap w !! key = None →
  response_config r = AxiosRequest.setSignal (allocated w) res →
  let w1 := after (AxiosRequest.requestFulfilled JSON_parse res) w in
  let w2 := after (AxiosRequest.responseFulfilled (VResponse r)) w1 in
  let again := AxiosRequest.requestFulfilled JSON_parse res w2 in
  again.1 = Normal (AxiosRequest.setSignal (S (allocated w)) res) ∧
  abortControllerMap again.2 !! key = None ∧
  allocated w ∈ aborted again.2 ∧
  S (allocated w) ∉ aborted again.2.
Proof.
  intros (H1 & H2 & H3) Hk Ht Hm Hr w1 w2 again. subst w1 w2 again.
  pose proof (requestKey_not_url JSON_parse res key Hk Ht) as Hne.
  unfold after. rewrite (requestFulfilled_fresh _ _ _ _ Hk Hm). cbn [snd].
  unfold AxiosRequest.responseFulfilled. simpl. rewrite Hr. run.
  rewrite (requestFulfilled_duplicate _ res key (allocated w)); [|done|].
  - simpl. split; [done|]. split; [apply lookup_delete_eq|].
    split; [set_solver|].
    rewrite elem_of_union, elem_of_singleton. intros [?|Hin]; [lia|].
    specialize (H3 _ Hin). lia.
  - simpl. rewrite lookup_delete_ne by done. apply lookup_insert_eq.
Qed.

Lemma request_after_completion_is_unregistered_witness :
  registryInv exampleWorld ∧
  AxiosRequest.requestKey parseJson pageQuery = Normal pageKey ∧
  abortControllerMap
    (AxiosRequest.requestFulfilled parseJson pageQuery
       (after (AxiosRequest.responseFulfilled
                 (VResponse (reply 200 None (AxiosRequest.setSignal 0 pageQuery))))
              onePending)).2 !! pageKey = None.
Proof.
  assert (registryInv exampleWorld) as Hinv by apply registryInv_init.
  assert (AxiosRequest.requestKey parseJson pageQuery = Normal pageKey) as Hk
    by (vm_compute; reflexivity).
  split; [exact Hinv|]. split; [exact Hk|].
  exact (proj1 (proj2 (request_after_completion_is_unregistered parseJson pageQuery pageKey
            (reply 200 None (AxiosRequest.setSignal 0 pageQuery)) exampleWorld
            Hinv Hk (or_introl eq_refl) eq_refl eq_refl))).
Defined.

(** *** X8 *)

(** X8. When the transport rejects, the response side of a client made by
    [creteRequest] never touches the stored credential, the address, the
    timers or the aborted controllers. A cancellation is silent: no notice
    and no console line. Every other error shows exactly one notice, the
    generic server error under the key [error]. The registry loses the key
    that is the bare url of the error's config, if the error has one. *)
Theorem failures_notify_cancellations_are_silent
    (tokenKey : string) (e : ErrorObj) (w : World) :
  let w' := after (AxiosRequest.responseChain (hooksOf tokenKey) (Rejected e)) w in
  localStorage w' = localStorage w ∧ href w' = href w ∧ timers w' = timers w ∧
  aborted w' = aborted w ∧
  (CreateRequest.isCancel e = true → notices w' = notices w ∧ console w' = console w) ∧
  (CreateRequest.isCancel e = false →
     notices w' = (notices w ++ [mkNotice "服务器错误！" (Some "error")])%list) ∧
  abortControllerMap w' = match error_config e with
                          | Some c => delete (orElse (url c) "") (abortControllerMap w)
                          | None => abortControllerMap w
                          end.
Proof.
  intros w'. subst w'. unfold after. rewrite responseChain_rejected.
  destruct (CreateRequest.isCancel e), (error_config e); simpl; repeat split; done.
Qed.

Lemma failures_notify_cancellations_are_silent_witness :
  CreateRequest.isCancel (mkError CanceledError None (Some pageQuery)) = true ∧
  notices (after (AxiosRequest.responseChain (hooksOf "token")
                    (Rejected (mkError CanceledError None (Some pageQuery)))) exampleWorld)
    = notices exampleWorld ∧
  CreateRequest.isCancel (mkError AxiosError None (Some pageQuery)) = false ∧
  notices (after (AxiosRequest.responseChain (hooksOf "token")
                    (Rejected (mkError AxiosError None (Some pageQuery)))) exampleWorld)
    = [mkNotice "服务器错误！" (Some "error")].
Proof.
  destruct (failures_notify_cancellations_are_silent "token"
              (mkError CanceledError None (Some pageQuery)) exampleWorld)
    as (_ & _ & _ & _ & Hc & _).
  destruct (failures_notify_cancellations_are_silent "token"
              (mkError AxiosError None (Some pageQuery)) exampleWorld)
    as (_ & _ & _ & _ & _ & Hf & _).
  exact (conj eq_refl (conj (proj1 (Hc eq_refl)) (conj eq_refl (Hf eq_refl)))).
Defined.

(** *** X9 *)

(** X9. The promise of a call is never rejected with the error of the
    transport. Whatever the transport's outcome, the response side of a
    client made by [creteRequest] fulfils the promise with a [data] field
    when the outcome carries a config, and rejects it with a [TypeError]
    (the last interceptor reading [url] of an undefined [config]) when it
    carries none. *)
Theorem calls_reject_only_with_TypeError
    (tokenKey : string) (outcome : Settled) (w : World) :
  (outcomeConfig outcome = None →
     completion (AxiosRequest.responseChain (hooksOf tokenKey) outcome) w
     = Normal (Rejected typeError)) ∧
  (∀ c, outcomeConfig outcome = Some c →
     ∃ d, completion (AxiosRequest.responseChain (hooksOf tokenKey) outcome) w
          = Normal (Fulfilled (VData d))).
Proof.
  unfold completion. destruct outcome as [v|e].
  - destruct v as [c|r|e|d].
    + split; [done|]. intros c' [=].
    + rewrite responseChain_responded. split; [done|]. intros c' _. by eexists.
    + simpl. split; [intros He|intros c' He];
        unfold AxiosRequest.responseChain, hooksOf; simpl;
        unfold mbind, M_bind, bind, then_, AxiosRequest.onResponse,
          AxiosRequest.responseFulfilled; simpl; rewrite He; [done|by eexists].
    + split; [done|]. intros c' [=].
  - rewrite responseChain_rejected. simpl.
    split; [intros ->; done|]. intros c' ->. by eexists.
Qed.

Lemma calls_reject_only_with_TypeError_witness :
  outcomeConfig (Rejected syntaxError) = None ∧
  completion (AxiosRequest.responseChain (hooksOf "token") (Rejected syntaxError))
             exampleWorld
    = Normal (Rejected typeError).
Proof.
  exact (conj eq_refl
          (proj1 (calls_reject_only_with_TypeError "token" (Rejected syntaxError)
                    exampleWorld) eq_refl)).
Defined.

(** *** X10 *)

(** X10. After a response with the code 401 the client is logged out for
    the requests that follow: the request hook finds no credential and
    returns every config as it is, without an [Authorization] header of its
    own. *)
Theorem no_token_after_unauthorized
    (tokenKey : string) (res : AxiosResponse) (config : RequestConfig) (w : World) :
  response_data res ≫= code = Some 401%Z →
  let w' := after (CreateRequest.responseInterceptors tokenKey res) w in
  CreateRequest.requestInterceptors tokenKey config w' = (Normal config, w').
Proof.
  intros H401 w'. subst w'.
  unfold CreateRequest.responseInterceptors, CreateRequest.requestInterceptors. run.
  rewrite bool_decide_true by done. simpl.
  destruct (includes "#" (href w)); simpl; rewrite lookup_delete_eq; simpl;
    by destruct (headers config).
Qed.

Lemma no_token_after_unauthorized_witness :
  response_data (reply 401 None pageQuery) ≫= code = Some 401%Z ∧
  completion (CreateRequest.requestInterceptors "token" pageQuery)
    (after (CreateRequest.responseInterceptors "token" (reply 401 None pageQuery))
           exampleWorld)
  = Normal pageQuery.
Proof.
  split; [reflexivity|].
  exact (f_equal fst (no_token_after_unauthorized "token" (reply 401 None pageQuery)
                        pageQuery exampleWorld eq_refl)).
Defined.

(** *** X11 *)

Lemma registered_frame key w :
  notices (registered key w) = notices w ∧
  localStorage (registered key w) = localStorage w ∧
  href (registered key w) = href w ∧ timers (registered key w) = timers w ∧
  allocated (registered key w) = S (allocated w).
Proof. unfold registered. by destruct (abortControllerMap w !! key). Qed.

(** X11. The request side of a client made by [creteRequest] is quiet: for
    every config it creates exactly one controller, shows no notice (the
    time-out notice of [requestInterceptorsCatch] is never reached), and
    leaves the store, the address and the timers alone. It either hands on
    a config whose signal is the new controller, or is rejected, and then
    with the [SyntaxError] of [JSON.parse] and with the registry and the
    aborted controllers untouched. *)
Theorem request_side_is_quiet
    (JSON_parse : string -> option JsVal) (tokenKey : string)
    (config : RequestConfig) (w : World) :
  let chain := AxiosRequest.requestChain JSON_parse (hooksOf tokenKey) config in
  let w' := after chain w in
  notices w' = notices w ∧ localStorage w' = localStorage w ∧
  href w' = href w ∧ timers w' = timers w ∧
  allocated w' = S (allocated w) ∧
  ((∃ sent, completion chain w = Normal (Fulfilled (VConfig sent)) ∧
            signal sent = Some (allocated w)) ∨
   (completion chain w = Normal (Rejected syntaxError) ∧
    abortControllerMap w' = abortControllerMap w ∧ aborted w' = aborted w)).
Proof.
  intros chain w'. subst chain w'. unfold after, completion.
  destruct (AxiosRequest.requestKey JSON_parse config) as [key|e] eqn:Hk.
  - destruct (requestChain_state JSON_parse tokenKey config key w Hk)
      as (stamped & _ & E & _).
    rewrite E. simpl. destruct (registered_frame key w) as (?&?&?&?&?).
    repeat (split; [done|]). left. by eexists.
  - rewrite (requestChain_throw _ _ _ _ _ Hk). simpl.
    apply requestKey_throws in Hk as ->.
    repeat (split; [done|]). by right.
Qed.

(** *** X12 *)

(** X12. The credential does not enter the fingerprint. When the store
    holds a non-empty credential and the config has a headers object, the
    config that leaves the request side carries the credential as its
    [Authorization] header and a fresh controller as its signal, and is
    registered under the fingerprint of the config the caller passed: its
    method, url, parameters and body are unchanged. *)
Theorem token_is_stamped_before_registration
    (JSON_parse : string -> option JsVal) (tokenKey : string)
    (config : RequestConfig) (key : string) (h : gmap string string)
    (a : ascii) (t : string) (w : World) :
  AxiosRequest.requestKey JSON_parse config = Normal key →
  headers config = Some h →
  completion (getLocalInfo tokenKey) w = Normal (Some (String a t)) →
  abortControllerMap w !! key = None →
  let chain := AxiosRequest.requestChain JSON_parse (hooksOf tokenKey) config in
  ∃ sent,
    completion chain w = Normal (Fulfilled (VConfig sent)) ∧
    headers sent = Some (<["Authorization" := String a t]> h) ∧
    signal sent = Some (allocated w) ∧
    method sent = method config ∧ url sent = url config ∧
    params sent = params config ∧ data sent = data config ∧
    AxiosRequest.requestKey JSON_parse sent = Normal key ∧
    abortControllerMap (after chain w) = <[key := allocated w]> (abortControllerMap w) ∧
    aborted (after chain w) = aborted w.
Proof.
  intros Hk Hh Ht Hm chain. subst chain. unfold after, completion.
  destruct (requestChain_state JSON_parse tokenKey config key w Hk)
    as (stamped & Es & E & Hme & Hu & Hp & Hd).
  rewrite E. simpl. eexists. split; [reflexivity|].
  unfold CreateRequest.requestInterceptors in Es. run. rewrite Hh in Es.
  injection Ht as Ht. rewrite Ht in Es. simpl in Es. injection Es as <-.
  simpl. repeat (split; [done|]).
  unfold registered. by rewrite Hm.
Qed.

Lemma token_is_stamped_before_registration_witness :
  AxiosRequest.requestKey parseJson pageQuery = Normal pageKey ∧
  headers pageQuery = Some ∅ ∧
  completion (getLocalInfo "token") exampleWorld = Normal (Some "tok-123") ∧
  abortControllerMap exampleWorld !! pageKey = None ∧
  ∃ sent,
    completion (AxiosRequest.requestChain parseJson (hooksOf "token") pageQuery) exampleWorld
      = Normal (Fulfilled (VConfig sent)) ∧
    headers sent = Some (<["Authorization" := "tok-123"]> ∅).
Proof.
  assert (AxiosRequest.requestKey parseJson pageQuery = Normal pageKey) as Hk
    by (vm_compute; reflexivity).
  split; [exact Hk|]. split; [reflexivity|]. split; [reflexivity|].
  split; [reflexivity|].
  destruct (token_is_stamped_before_registration parseJson "token" pageQuery pageKey ∅
              "t"%char "ok-123" exampleWorld Hk eq_refl eq_refl eq_refl)
    as (sent & Hc & Hh & _).
  exists sent. exact (conj Hc Hh).
Defined.

(** *** X13 *)



(** *** X14 *)

Lemma segments_coerced sep l l' :
  coerced <$> l = coerced <$> l' → segments sep l = segments sep l'.
Proof.
  revert l'. induction l as [|p r IH]; intros [|p' r'] H;
    rewrite ?fmap_cons, ?fmap_nil in H; try done.
  injection H. intros Hr H2 H1.
  simpl. unfold segment. by rewrite H1, H2, (IH r').
Qed.

(** X14. The fingerprint compares parameter values by the string they are
    coerced to: two configs with the same method, url and body whose
    parameters have the same names, in the same order, and values with the
    same string form get the same key, whatever the types of the values;
    the number 1 and the string "1" are not told apart. *)
Theorem fingerprint_compares_coerced_values
    (JSON_parse : string -> option JsVal) (res res' : RequestConfig) :
  method res' = method res → url res' = url res → data res' = data res →
  coerced <$> paramList res' = coerced <$> paramList res →
  AxiosRequest.requestKey JSON_parse res' = AxiosRequest.requestKey JSON_parse res.
Proof.
  intros Hm Hu Hd Hp. rewrite !requestKey_closed. rewrite Hm, Hu, Hd.
  unfold fingerprint. by rewrite (segments_coerced "&" _ _ Hp).
Qed.

Lemma fingerprint_compares_coerced_values_witness :
  coerced <$> paramList (mkConfig (Some "get") (Some "/x") (Some [("page", JStr "1")])
                           DataAbsent None None)
  = coerced <$> paramList (mkConfig (Some "get") (Some "/x") (Some [("page", JNum 1)])
                             DataAbsent None None) ∧
  AxiosRequest.requestKey parseJson
    (mkConfig (Some "get") (Some "/x") (Some [("page", JStr "1")]) DataAbsent None None)
  = AxiosRequest.requestKey parseJson
      (mkConfig (Some "get") (Some "/x") (Some [("page", JNum 1)]) DataAbsent None None).
Proof.
  assert (coerced <$> paramList (mkConfig (Some "get") (Some "/x")
                                   (Some [("page", JStr "1")]) DataAbsent None None)
          = coerced <$> paramList (mkConfig (Some "get") (Some "/x")
                                     (Some [("page", JNum 1)]) DataAbsent None None))
    as Hp by (vm_compute; reflexivity).
  exact (conj Hp (fingerprint_compares_coerced_values parseJson _ _
                    eq_refl eq_refl eq_refl Hp)).
Defined.

(** *** X15 *)

(** X15. A call whose body is a string between braces that [JSON.parse]
    refuses never reaches the transport: whatever the adapter, the promise
    of the call is rejected, not with the [SyntaxError] but with the
    [TypeError] of the last response interceptor; the user is shown the
    generic server-error notice once; and nothing is registered or
    aborted. *)
Theorem malformed_body_call_is_rejected
    (JSON_parse : string -> option JsVal) (tokenKey : string)
    (adapter : RequestConfig -> Settled) (res : RequestConfig) (text : string)
    (w : World) :
  data res = DataString text →
  braced text →
  JSON_parse text = None →
  let call := AxiosRequest.request JSON_parse (hooksOf tokenKey) adapter res in
  completion call w = Normal (Rejected typeError) ∧
  notices (after call w) = (notices w ++ [mkNotice "服务器错误！" (Some "error")])%list ∧
  abortControllerMap (after call w) = abortControllerMap w ∧
  aborted (after call w) = aborted w ∧
  localStorage (after call w) = localStorage w.
Proof.
  intros Hd Hb Hp call. subst call.
  assert (AxiosRequest.requestKey JSON_parse res = Throw syntaxError) as Hk
    by (by rewrite requestKey_closed, Hd, (jsonText_braced _ Hb), Hp).
  unfold completion, after, AxiosRequest.request, mbind, M_bind, bind.
  rewrite (requestChain_throw _ _ _ _ _ Hk). cbn [AxiosRequest.dispatchRequest].
  rewrite responseChain_rejected. simpl. done.
Qed.

Lemma malformed_body_call_is_rejected_witness :
  braced "{a}" ∧ parseJson "{a}" = None ∧
  completion (AxiosRequest.request parseJson (hooksOf "token") okAdapter (postBody "{a}"))
             exampleWorld
  = Normal (Rejected typeError).
Proof.
  assert (braced "{a}") as Hb by (by exists "a").
  assert (parseJson "{a}" = None) as Hp by (vm_compute; reflexivity).
  exact (conj Hb (conj Hp
          (proj1 (malformed_body_call_is_rejected parseJson "token" okAdapter
                    (postBody "{a}") "{a}" exampleWorld eq_refl Hb Hp)))).
Defined.

(** *** X16 *)

(** X16. [responseInterceptors] never throws and never touches the registry
    or the controllers: it returns the response it was given. A response
    with the code 200 changes nothing at all; every other response adds
    exactly one notice; and only the code 401 changes the store, the
    address or the timers. *)
Theorem response_hook_is_silent_on_success
    (tokenKey : string) (res : AxiosResponse) (w : World) :
  let w' := after (CreateRequest.responseInterceptors tokenKey res) w in
  completion (CreateRequest.responseInterceptors tokenKey res) w = Normal res ∧
  sameRegistry w w' ∧
  (response_data res ≫= code = Some 200%Z → w' = w) ∧
  (response_data res ≫= code ≠ Some 200%Z →
     length (notices w') = S (length (notices w))) ∧
  (response_data res ≫= code ≠ Some 401%Z →
     localStorage w' = localStorage w ∧ href w' = href w ∧ timers w' = timers w).
Proof.
  intros w'. subst w'.
  split; [apply responseInterceptors_returns|].
  split; [apply responseInterceptors_sameRegistry|].
  unfold CreateRequest.responseInterceptors, CreateRequest.handleError. run.
  split; [|split].
  - intros H200. rewrite H200. simpl. by destruct w.
  - intros H200. rewrite (bool_decide_false _ H200).
    case_bool_decide; simpl; [destruct (includes "#" (href w)); simpl|];
      rewrite length_app; simpl; lia.
  - intros H401. rewrite (bool_decide_false _ H401). by case_bool_decide.
Qed.

Lemma response_hook_is_silent_on_success_witness :
  response_data (reply 200 None pageQuery) ≫= code = Some 200%Z ∧
  after (CreateRequest.responseInterceptors "token" (reply 200 None pageQuery)) exampleWorld
  = exampleWorld.
Proof.
  destruct (response_hook_is_silent_on_success "token" (reply 200 None pageQuery)
              exampleWorld) as (_ & _ & H200 & _).
  exact (conj eq_refl (H200 eq_refl)).
Defined.

(** *** X17 *)

(** X17. In every state a client made by [creteRequest] reaches, by sending
    requests, settling them and calling the two cancel methods in any order,
    no controller held by the registry has been aborted, no controller is
    held under two keys, and the registry holds at most as many entries as
    controllers were created. *)
Theorem registry_holds_live_controllers
    (JSON_parse : string -> option JsVal) (tokenKey : string) (w : World) :
  reachable JSON_parse tokenKey w →
  (∀ k c, abortControllerMap w !! k = Some c → c ∉ aborted w) ∧
  (∀ k1 k2 c, abortControllerMap w !! k1 = Some c →
              abortControllerMap w !! k2 = Some c → k1 = k2) ∧
  (size (abortControllerMap w) <= allocated w)%nat.
Proof.
  intros Hr. destruct (reachable_registryInv _ _ _ Hr) as (H1 & H2 & H3).
  split; [intros k c Hl; by apply (H1 k c)|]. split; [done|].
  assert (∀ (n : nat) (m : gmap string nat),
            (∀ k c, m !! k = Some c → c < n) →
            (∀ k1 k2 c, m !! k1 = Some c → m !! k2 = Some c → k1 = k2) →
            size m <= n)%nat as Hsize.
  { clear. induction n as [|n IH]; intros m Hlt Hinj.
    - destruct (map_choose_or_empty m) as [(k & c & Hl)| ->]; [|done].
      specialize (Hlt _ _ Hl). lia.
    - assert ((∃ k, m !! k = Some n) ∨ ¬ ∃ k, m !! k = Some n) as [(k & Hk)|Hno].
      { destruct (decide (n ∈ (map_to_list m).*2)) as [Hin|Hout].
        - left. apply list_elem_of_fmap in Hin as ([k c] & -> & Hin).
          exists k. by apply elem_of_map_to_list.
        - right. intros (k & Hk). apply Hout. apply list_elem_of_fmap.
          exists (k, n). split; [done|]. by apply elem_of_map_to_list. }
      + assert (size (delete k m) <= n)%nat.
        { apply IH.
          - intros k' c Hl. apply lookup_delete_Some in Hl as [Hne Hl].
            specialize (Hlt _ _ Hl).
            assert (c ≠ n) by (intros ->; apply Hne; eauto). lia.
          - intros k1 k2 c Hl1 Hl2.
            apply lookup_delete_Some in Hl1 as [_ Hl1].
            apply lookup_delete_Some in Hl2 as [_ Hl2]. eauto. }
        rewrite <- (insert_delete_id m k n Hk).
        rewrite map_size_insert_None by apply lookup_delete_eq. lia.
      + assert (size m <= n)%nat; [|lia]. apply IH; [|done].
        intros k c Hl. specialize (Hlt _ _ Hl).
        assert (c ≠ n) by (intros ->; apply Hno; eauto). lia. }
  apply Hsize; [|done]. intros k c Hl. by apply (H1 k c).
Qed.

Lemma registry_holds_live_controllers_witness :
  reachable parseJson "token"
    (after (AxiosRequest.requestChain parseJson exampleHooks pageQuery) exampleWorld) ∧
  (size (abortControllerMap
           (after (AxiosRequest.requestChain parseJson exampleHooks pageQuery) exampleWorld))
   <= 1)%nat.
Proof.
  assert (reachable parseJson "token"
            (after (AxiosRequest.requestChain parseJson exampleHooks pageQuery)
                   exampleWorld)) as Hr
    by apply (reach_send parseJson "token" exampleWorld pageQuery), reach_new.
  exact (conj Hr (proj2 (proj2 (registry_holds_live_controllers parseJson "token" _ Hr)))).
Defined.

(** *** The callers *)

Lemma request_answered JSON_parse tokenKey adapter config key w :
  answers adapter →
  AxiosRequest.requestKey JSON_parse config = Normal key →
  let w' := after (AxiosRequest.request JSON_parse (hooksOf tokenKey) adapter config) w in
  abortControllerMap w'
    = delete (orElse (url config) "") (abortControllerMap (registered key w)) ∧
  aborted w' = aborted (registered key w) ∧
  allocated w' = S (allocated w).
Proof.
  intros Hans Hk w'. subst w'.
  destruct (requestChain_state JSON_parse tokenKey config key w Hk)
    as (stamped & _ & E & _ & Hu & _).
  unfold after, AxiosRequest.request, mbind, M_bind, bind. rewrite E.
  cbn [AxiosRequest.dispatchRequest].
  destruct (registered_frame key w) as (_ & _ & _ & _ & Hal).
  destruct (Hans (AxiosRequest.setSignal (allocated w) stamped))
    as [(r & -> & Hr)|(e & -> & He)].
  - rewrite responseChain_responded. simpl. rewrite Hr. simpl. rewrite Hu.
    destruct (responseInterceptors_sameRegistry tokenKey r (registered key w))
      as (-> & -> & ->). done.
  - rewrite responseChain_rejected, He. simpl. rewrite Hu.
    by destruct (CreateRequest.isCancel e).
Qed.

Lemma request_answered_fresh JSON_parse tokenKey adapter config key w :
  answers adapter →
  AxiosRequest.requestKey JSON_parse config = Normal key →
  abortControllerMap w !! key = None →
  let w' := after (AxiosRequest.request JSON_parse (hooksOf tokenKey) adapter config) w in
  (∀ k, k ≠ orElse (url config) "" →
        abortControllerMap w' !! k = <[key := allocated w]> (abortControllerMap w) !! k) ∧
  aborted w' = aborted w ∧
  allocated w' = S (allocated w).
Proof.
  intros Hans Hk Hm w'. subst w'.
  destruct (request_answered JSON_parse tokenKey adapter config key w Hans Hk)
    as (-> & -> & ->).
  unfold registered. rewrite Hm. simpl. split; [|done].
  intros k Hne. by rewrite lookup_delete_ne.
Qed.

Ltac differ :=
  let H := fresh in
  intros H; apply (f_equal (String.get 0)) in H; vm_compute in H; discriminate H.

(** *** X18 *)


Lemma okAdapter_answers : answers okAdapter.
Proof. intros c. left. by eexists. Qed.


(** *** X19 *)

Lemma append_cancel_r t : ∀ s1 s2, s1 +:+ t = s2 +:+ t → s1 = s2.
Proof.
  induction s1 as [|a s1 IH]; intros [|b s2] H; [done| | |].
  - change ("" +:+ t) with t in H. apply (f_equal String.length) in H.
    rewrite append_cons in H. simpl in H. rewrite length_append in H. lia.
  - change ("" +:+ t) with t in H. apply (f_equal String.length) in H.
    rewrite append_cons in H. simpl in H. rewrite length_append in H. lia.
  - rewrite !append_cons in H. injection H as -> H. f_equal. by apply IH.
Qed.

(** X19. Paging through the user list does not cancel the page before:
    [getUserPage({ page: p, pageSize: s })] is keyed
    [get^/authority/user/page&page=<p>&pageSize=<s>], so two calls for
    different pages of the same size have different keys. When neither key is
    registered and the transport answers, both controllers are in the
    registry afterwards and nothing has been aborted. *)
Theorem user_pages_do_not_cancel
    (JSON_parse : string -> option JsVal) (adapter : RequestConfig -> Settled)
    (defaults : gmap string string) (p q s : Z) (w : World) :
  answers adapter →
  p ≠ q →
  let keyOf (n : Z) :=
    "get^/authority/user/page&page=" +:+ pretty n +:+ "&pageSize=" +:+ pretty s in
  abortControllerMap w !! keyOf p = None →
  abortControllerMap w !! keyOf q = None →
  let w1 := after (User.getUserPage JSON_parse adapter defaults
                     [("page", JNum p); ("pageSize", JNum s)]) w in
  let w2 := after (User.getUserPage JSON_parse adapter defaults
                     [("page", JNum q); ("pageSize", JNum s)]) w1 in
  keyOf p ≠ keyOf q ∧
  abortControllerMap w2 !! keyOf p = Some (allocated w) ∧
  abortControllerMap w2 !! keyOf q = Some (S (allocated w)) ∧
  aborted w2 = aborted w.
Proof.
  intros Hans Hpq keyOf Hp Hq w1 w2.
  assert (keyOf p ≠ keyOf q) as Hne.
  { unfold keyOf. intros H. apply String.app_inj in H.
    apply append_cancel_r in H. by apply pretty_Z_inj in H. }
  assert (∀ n, keyOf n ≠ "/authority/user/page") as Hurl by (intros n; unfold keyOf; differ).
  destruct (request_answered_fresh JSON_parse UtilsRequest.TOKEN adapter
              (AxiosRequest.withVerb "get" (User.API_URL +:+ "/page") DataAbsent
                 (UtilsRequest.options defaults
                    (Some [("page", JNum p); ("pageSize", JNum s)])))
              (keyOf p) w Hans eq_refl Hp)
    as (Hm1 & Ha1 & Hn1).
  change (after _ w) with w1 in Hm1, Ha1, Hn1.
  assert (abortControllerMap w1 !! keyOf q = None) as Hq1.
  { rewrite Hm1 by apply Hurl. by rewrite lookup_insert_ne. }
  destruct (request_answered_fresh JSON_parse UtilsRequest.TOKEN adapter
              (AxiosRequest.withVerb "get" (User.API_URL +:+ "/page") DataAbsent
                 (UtilsRequest.options defaults
                    (Some [("page", JNum q); ("pageSize", JNum s)])))
              (keyOf q) w1 Hans eq_refl Hq1)
    as (Hm2 & Ha2 & Hn2).
  change (after _ w1) with w2 in Hm2, Ha2, Hn2.
  split; [done|]. split; [|split].
  - rewrite Hm2 by apply Hurl. rewrite lookup_insert_ne by done.
    rewrite Hm1 by apply Hurl. apply lookup_insert_eq.
  - rewrite Hm2 by apply Hurl. rewrite lookup_insert_eq. by rewrite Hn1.
  - by rewrite Ha2, Ha1.
Qed.

Lemma user_pages_do_not_cancel_witness :
  answers okAdapter ∧ (1 ≠ 2)%Z ∧
  aborted
    (after (User.getUserPage parseJson okAdapter ∅ [("page", JNum 2); ("pageSize", JNum 20)])
       (after (User.getUserPage parseJson okAdapter ∅
                 [("page", JNum 1); ("pageSize", JNum 20)]) exampleWorld))
  = aborted exampleWorld.
Proof.
  assert ((1 ≠ 2)%Z) as Hne by lia.
  split; [exact okAdapter_answers|]. split; [exact Hne|].
  exact (proj2 (proj2 (proj2
    (user_pages_do_not_cancel parseJson okAdapter ∅ 1 2 20 exampleWorld
       okAdapter_answers Hne eq_refl eq_refl)))).
Defined.
